(** * Anki flashcard generator API (app/main.py): model and properties

    The service has three operations over one shared storage folder:
    [generate_flashcards] builds an .apkg archive from a package
    description, [download_file] serves a stored file, and [upload_media]
    stores raw bytes under the uploader's filename.

    The process state that the handlers read and change is explicit here:
    the files of the storage area, and how many values have been taken so
    far from the two sources of randomness ([random] and [uuid]).  What the
    handlers obtain from outside the module (the random values themselves,
    the operating system's verdict on opening a file, the genanki library's
    serializer) is gathered in one [Environment] record, so every statement
    below holds for whatever those components do. *)

From Stdlib Require Import ZArith Lia Ascii String.
From stdpp Require Import base option list gmap strings.

Local Open Scope Z_scope.

(** ** Request and response models (the pydantic classes) *)

(** A member of a JSON object is absent, [null], or carries a value.  The
    three cases matter for the [Optional[...] = Field(default=...)]
    attributes: the default is used only when the member is absent. *)
Inductive member (A : Type) : Type :=
| Omitted
| Null
| Given (a : A).
Arguments Omitted {A}.
Arguments Null {A}.
Arguments Given {A} a.

(** [Optional[T] = Field(default=d)]: absent gives the default [d], an
    explicit [null] gives [None], a value gives itself. *)
Definition optional_field {A : Type} (default : option A) (m : member A) : option A :=
  match m with
  | Omitted => default
  | Null => None
  | Given a => Some a
  end.

(** Strings hold text in UTF-8.  A text can be encoded in latin-1 when none
    of its characters lies above U+00FF, that is, when its UTF-8 form has no
    lead byte from 0xC4 upwards. *)
Fixpoint latin1_encodable (s : string) : bool :=
  match s with
  | EmptyString => true
  | String c rest => (N_of_ascii c <? 196)%N && latin1_encodable rest
  end.

Module CardTemplate.
Record t : Type := mk { name : string; qfmt : string; afmt : string }.

  (** [template.dict()]: the attributes as a dictionary, in declaration order. *)
Definition dict (template : t) : list (string * string) :=
    [("name", name template); ("qfmt", qfmt template); ("afmt", afmt template)]%string.
End CardTemplate.

Module ModelDefinition.
Record t : Type := mk {
    name : string;
    fields : list string;
    templates : list CardTemplate.t;
    css : option string
  }.

  (** The JSON shape accepted for a model. *)
Record json : Type := mk_json {
    j_name : string;
    j_fields : list string;
    j_templates : list CardTemplate.t;
    j_css : member string
  }.

Definition parse (j : json) : t :=
    {| name := j_name j;
       fields := j_fields j;
       templates := j_templates j;
       css := optional_field (Some EmptyString) (j_css j) |}.
End ModelDefinition.

Module Note.
Record t : Type := mk {
    fields : list string;
    tags : option (list string);
    guid : option string
  }.

Record json : Type := mk_json {
    j_fields : list string;
    j_tags : member (list string);
    j_guid : member string
  }.

Definition parse (j : json) : t :=
    {| fields := j_fields j;
       tags := optional_field (Some []) (j_tags j);
       guid := optional_field None (j_guid j) |}.
End Note.

Module Deck.
Record t : Type := mk {
    name : string;
    description : option string;
    notes : list Note.t
  }.

Record json : Type := mk_json {
    j_name : string;
    j_description : member string;
    j_notes : list Note.json
  }.

Definition parse (j : json) : t :=
    {| name := j_name j;
       description := optional_field (Some EmptyString) (j_description j);
       notes := map Note.parse (j_notes j) |}.
End Deck.

Module Package.
Record t : Type := mk {
    decks : list Deck.t;
    model : ModelDefinition.t
  }.

Record json : Type := mk_json {
    j_decks : list Deck.json;
    j_model : ModelDefinition.json
  }.

Definition parse (j : json) : t :=
    {| decks := map Deck.parse (j_decks j);
       model := ModelDefinition.parse (j_model j) |}.
End Package.

Module MediaUploadResponse.
Record t : Type := mk { filename : string; status : string }.
End MediaUploadResponse.

Module FlashcardGenerationResponse.
Record t : Type := mk { message : string; download_url : string }.
End FlashcardGenerationResponse.

(** The multipart part received by [upload_media]. *)
Module UploadFile.
Record t : Type := mk { filename : string; content : list Byte.byte }.
End UploadFile.

(** [fastapi.responses.FileResponse], as the handler constructs it. *)
Module FileResponse.
Record t : Type := mk {
    path : string;
    filename : string;
    media_type : string;
    headers : list (string * string)
  }.
End FileResponse.

(** [fastapi.HTTPException(status_code, detail)]. *)
Record HTTPException : Type := mkHTTPException {
  status_code : Z;
  detail : string
}.

(** What a handler that catches nothing lets out: an [HTTPException] it
    raised itself, or any other exception, with its text. *)
Inductive Raised : Type :=
| Http (e : HTTPException)
| Uncaught (text : string).

(** ** The genanki objects the builder constructs

    genanki is a third-party library; its objects are represented by the
    constructor arguments the builder passes, which is all that main.py
    determines about them.  Whatever the library raises on these arguments
    is accounted for where the package is written ([write_to_file]). *)
Module genanki.

Module Model.
Record t : Type := mk {
      model_id : Z;
      name : string;
      fields : list (list (string * string));
      templates : list (list (string * string));
      css : option string
    }.
End Model.

Module Note.
Record t : Type := mk {
      model : Model.t;
      fields : list string;
      tags : option (list string);
      guid : option string
    }.
End Note.

Module Deck.
Record t : Type := mk {
      deck_id : Z;
      name : string;
      description : option string;
      notes : list Note.t
    }.

    (** [genanki.Deck(deck_id, name, description)]: a deck without notes. *)
Definition new (deck_id : Z) (name : string) (description : option string) : t :=
      mk deck_id name description [].

    (** [deck.add_note(note)]: the note is appended to the deck's list. *)
Definition add_note (deck : t) (note : Note.t) : t :=
      mk (deck_id deck) (name deck) (description deck) (notes deck ++ [note]).
End Deck.

End genanki.

(** ** The content of an archive *)

(** Modelled from the spec: the archive format is genanki's and is not among
    the sources.  By section 4.2 (step 4) and section 6 the archive embeds a
    relational database with, among others, a collection of decks, the
    notes, and the note-to-deck associations, decks being identified by
    their numeric id (section 3).  This is the part of it that the
    properties below are about: the deck table, keyed by deck id, and the
    notes in the order written, each with the id of its deck. *)
Module Archive.

Record deck_entry : Type := mk_entry { name : string; description : option string }.

Record t : Type := mk {
  decks : gmap Z deck_entry;
  notes : list (Z * genanki.Note.t)
}.


End Archive.

(** ** Process state and environment *)

(** The state shared by all requests: the files stored, by path, and the
    number of values already taken from the [random] module's generator and
    from [uuid.uuid4].  A file is identified by the text of its path: two
    texts that the file system resolves to one file (a name and the same
    name behind "./", say) are not identified here, so statements about
    different files are made for paths that cannot name one file. *)
Record World : Type := mkWorld {
  fs : gmap string (list Byte.byte);
  rand_calls : nat;
  uuid_calls : nat
}.

(** What main.py takes from outside itself. *)
Record Environment : Type := mkEnvironment {
  (** [os.environ.get('OUTPUT_FOLDER', gettempdir())], fixed at import. *)
  OUTPUT_FOLDER : string;
  (** The k-th value delivered by the [random] module's generator. *)
  entropy : nat -> Z;
  (** The 16 random bytes behind the k-th UUID generated by the process,
      as a number. *)
  urandom16 : nat -> N;
  (** The text of the error raised when the path cannot be opened for
      writing ([open(path, "wb")]), if it cannot. *)
  open_error : string -> option string;
  (** The directories of the file system; the handlers create and remove
      none. *)
  is_dir : string -> bool;
  (** genanki's serializer: the text of the exception it raises on a
      list of decks, if it raises. *)
  genanki_error : list genanki.Deck.t -> option string;
  (** The deck entries genanki puts into every archive by itself. *)
  library_decks : gmap Z Archive.deck_entry;
  (** The container format: the bytes of an archive with a given content,
      and the content read back from bytes. *)
  apkg_encode : Archive.t -> list Byte.byte;
  apkg_decode : list Byte.byte -> option Archive.t;
  (** genanki's hash of a note's field values (see [guid_for]). *)
  field_hash : list string -> string
}.

(** ** Computations that read and change the world and may raise

    [E] is what a raised exception carries: the exception's text ([str(e)])
    inside a handler's [try] block, an [HTTPException] at the boundary of
    the handler. *)
Inductive Result (E A : Type) : Type :=
| Return (a : A)
| Raise (e : E).
Arguments Return {E A} a.
Arguments Raise {E A} e.

Definition Eff (E A : Type) : Type := World -> Result E A * World.

Definition ret {E A : Type} (a : A) : Eff E A := fun w => (Return a, w).

Definition raise {E A : Type} (e : E) : Eff E A := fun w => (Raise e, w).

Definition bind {E A B : Type} (c : Eff E A) (k : A -> Eff E B) : Eff E B :=
  fun w =>
    match c w with
    | (Return a, w') => k a w'
    | (Raise e, w') => (Raise e, w')
    end.

(** [try: body  except Exception as e: handler(str(e))]. *)
Definition try_except {E E' A : Type} (body : Eff E A) (handler : E -> Eff E' A) : Eff E' A :=
  fun w =>
    match body w with
    | (Return a, w') => (Return a, w')
    | (Raise e, w') => handler e w'
    end.

Declare Scope eff_scope.
Delimit Scope eff_scope with eff.
Notation "x <- c ;; k" := (bind c (fun x => k))
  (at level 100, c at next level, right associativity) : eff_scope.
Notation "c ;;; k" := (bind c (fun _ => k))
  (at level 100, right associativity) : eff_scope.

(** ** Library operations used by the handlers *)

Definition startswith_sep (s : string) : bool :=
  match s with
  | String c _ => Ascii.eqb c "/"%char
  | EmptyString => false
  end.

Fixpoint endswith_sep (s : string) : bool :=
  match s with
  | EmptyString => false
  | String c EmptyString => Ascii.eqb c "/"%char
  | String _ rest => endswith_sep rest
  end.

(** [os.path.join(a, b)] (posixpath): an absolute [b] replaces [a]; else
    the parts are joined with one separator unless [a] is empty or already
    ends with one. *)
Definition os_path_join (a b : string) : string :=
  if startswith_sep b then b
  else if (String.eqb a EmptyString || endswith_sep a)%bool then a +:+ b
  else a +:+ "/" +:+ b.

(** A plain name: one path component that is neither empty nor one of the
    two directory links, so that two different plain names are two different
    entries of a folder. *)
Fixpoint has_sep (s : string) : bool :=
  match s with
  | EmptyString => false
  | String c rest => Ascii.eqb c "/"%char || has_sep rest
  end.

Definition plain_name (s : string) : bool :=
  negb (has_sep s) && negb (String.eqb s EmptyString) && negb (String.eqb s ".") &&
  negb (String.eqb s "..").

(** [uuid.UUID(bytes=..., version=4)]: the variant and version bits are
    forced on the 128 random bits. *)
Definition uuid4_int (random : N) : N :=
  N.lor (N.ldiff (N.lor (N.ldiff random (N.shiftl 0xc000 48)) (N.shiftl 0x8000 48))
           (N.shiftl 0xf000 64))
    (N.shiftl 4 76).

Definition hex_digit (d : N) : ascii :=
  match d with
  | 0 => "0" | 1 => "1" | 2 => "2" | 3 => "3" | 4 => "4" | 5 => "5" | 6 => "6" | 7 => "7"
  | 8 => "8" | 9 => "9" | 10 => "a" | 11 => "b" | 12 => "c" | 13 => "d" | 14 => "e"
  | _ => "f"
  end%N%char.

(** The last [n] hexadecimal digits of [v], before [acc]. *)
Fixpoint hex_digits (n : nat) (v : N) (acc : string) : string :=
  match n with
  | O => acc
  | S n' => hex_digits n' (v / 16)%N (String (hex_digit (v mod 16)%N) acc)
  end.

(** [uuid.uuid4().hex] of the k-th UUID generated by the process:
    ['%032x' % int]. *)
Definition uuid4_hex (env : Environment) (k : nat) : string :=
  hex_digits 32 (uuid4_int (urandom16 env k mod 2 ^ 128)%N) EmptyString.

(** Modelled from the spec: what genanki writes for a list of decks (the
    library is not among the sources).  The decks are written in order:
    each puts its entry into the deck table under its id, over whatever is
    there under that id, and then its notes, in order, with that id
    (section 4.2, steps 3 and 4). *)
Definition archive_decks (base : gmap Z Archive.deck_entry) (decks : list genanki.Deck.t)
    : gmap Z Archive.deck_entry :=
  fold_left
    (fun table d =>
       <[genanki.Deck.deck_id d :=
           Archive.mk_entry (genanki.Deck.name d) (genanki.Deck.description d)]> table)
    decks base.

Definition archive_notes (decks : list genanki.Deck.t) : list (Z * genanki.Note.t) :=
  concat (map (fun d => map (pair (genanki.Deck.deck_id d)) (genanki.Deck.notes d)) decks).

Definition archive_of (env : Environment) (decks : list genanki.Deck.t) : Archive.t :=
  Archive.mk (archive_decks (library_decks env) decks) (archive_notes decks).

(** The bytes of the archive written for a list of decks. *)
Definition apkg_bytes (env : Environment) (decks : list genanki.Deck.t) : list Byte.byte :=
  apkg_encode env (archive_of env decks).

(** [FileResponse(path, filename, media_type, headers)]: the constructor
    encodes the names and values of the headers it is given in latin-1, and
    raises UnicodeEncodeError when one of them cannot be. *)
Definition new_FileResponse (path filename media_type : string)
    (headers : list (string * string)) : Result string FileResponse.t :=
  if forallb (fun h => latin1_encodable (fst h) && latin1_encodable (snd h)) headers
  then Return (FileResponse.mk path filename media_type headers)
  else Raise "'latin-1' codec can't encode characters: ordinal not in range(256)"%string.

Section Handlers.
Context (env : Environment).

(** [uuid.uuid4().hex]. *)
Definition uuid4 : Eff string string :=
  fun w => (Return (uuid4_hex env (uuid_calls w)),
            mkWorld (fs w) (rand_calls w) (S (uuid_calls w))).

(** [random.randrange(start, stop)]: [start] plus a value below the width
    of the range; an empty range raises.  The generator's value is reduced
    modulo the width, which is how the model states that the result lies
    in the range whatever the generator delivers. *)
Definition randrange (start stop : Z) : Eff string Z :=
  fun w =>
    if stop <=? start then (Raise "empty range for randrange()"%string, w)
    else (Return (start + entropy env (rand_calls w) mod (stop - start)),
          mkWorld (fs w) (S (rand_calls w)) (uuid_calls w)).

(** [open(path, "wb")] followed by one [write(data)]: mode "wb" creates
    the file or truncates an existing one.  The storage either refuses the
    path, and nothing changes, or takes the data whole: a write that breaks
    off after the file has been opened, and so emptied, is not
    represented. *)
Definition write_file (path : string) (data : list Byte.byte) : Eff string unit :=
  fun w =>
    match open_error env path with
    | Some e => (Raise e, w)
    | None => (Return tt, mkWorld (<[path := data]> (fs w)) (rand_calls w) (uuid_calls w))
    end.

(** Modelled from the spec: [genanki.Package(decks).write_to_file(path)]
    belongs to the genanki library, which is not among the sources.  By
    section 4.2 (step 4 and failure semantics) the decks are serialized into
    one archive whose bytes are written to the path, and the call fails on a
    serialization error or on an I/O error.  Which decks the serializer
    refuses and which bytes it produces is left to the environment; a failed
    call leaves the storage untouched (a partly written file is not
    represented). *)
Definition write_to_file (decks : list genanki.Deck.t) (path : string) : Eff string unit :=
  match genanki_error env decks with
  | Some e => raise e
  | None => write_file path (apkg_bytes env decks)
  end.

(** ** POST /generate_flashcards/ *)

(** Lines 164-169: the genanki note for one input note. *)
Definition genanki_note (model : genanki.Model.t) (note : Note.t) : genanki.Note.t :=
  genanki.Note.mk model (Note.fields note) (Note.tags note) (Note.guid note).

(** Lines 163-170: the inner loop, adding the notes to the deck in order. *)
Fixpoint add_notes (model : genanki.Model.t) (notes : list Note.t)
    (genanki_deck : genanki.Deck.t) : genanki.Deck.t :=
  match notes with
  | [] => genanki_deck
  | note :: rest =>
      add_notes model rest (genanki.Deck.add_note genanki_deck (genanki_note model note))
  end.

(** Lines 157-171: the outer loop, appending one genanki deck per input
    deck to [genanki_decks]. *)
Fixpoint build_decks (model : genanki.Model.t) (decks : list Deck.t)
    (genanki_decks : list genanki.Deck.t) : Eff string (list genanki.Deck.t) :=
  match decks with
  | [] => ret genanki_decks
  | deck :: rest =>
      (deck_id <- randrange (2 ^ 30) (2 ^ 31) ;;
       let genanki_deck :=
         add_notes model (Deck.notes deck)
           (genanki.Deck.new deck_id (Deck.name deck) (Deck.description deck)) in
       build_decks model rest (genanki_decks ++ [genanki_deck]))%eff
  end.

(** Lines 148-154. *)
Definition build_model (model_id : Z) (m : ModelDefinition.t) : genanki.Model.t :=
  genanki.Model.mk model_id (ModelDefinition.name m)
    (map (fun field => [("name"%string, field)]) (ModelDefinition.fields m))
    (map CardTemplate.dict (ModelDefinition.templates m))
    (ModelDefinition.css m).

Definition base_url : string := "https://anki-gen5.onrender.com".

(** Lines 145-171: everything the [try] block does before the archive is
    written; the result is the generated filename, the model and the decks
    handed to the serializer. *)
Definition assemble (package : Package.t)
    : Eff string (string * genanki.Model.t * list genanki.Deck.t) :=
  (hex <- uuid4 ;;
   let filename := "flashcards_" +:+ hex +:+ ".apkg" in
   model_id <- randrange (2 ^ 30) (2 ^ 31) ;;
   let model := build_model model_id (Package.model package) in
   genanki_decks <- build_decks model (Package.decks package) [] ;;
   ret (filename, model, genanki_decks))%eff.

(** Lines 145-179: the body of the [try] block. *)
Definition generate_flashcards_body (package : Package.t)
    : Eff string FlashcardGenerationResponse.t :=
  (r <- assemble package ;;
   let '(filename, _, genanki_decks) := r in
   let file_path := os_path_join (OUTPUT_FOLDER env) filename in
   write_to_file genanki_decks file_path ;;;
   let download_url := base_url +:+ "/download/" +:+ filename in
   ret (FlashcardGenerationResponse.mk "Flashcards generated successfully" download_url))%eff.

(** Lines 144-181. *)
Definition generate_flashcards (package : Package.t)
    : Eff HTTPException FlashcardGenerationResponse.t :=
  try_except (generate_flashcards_body package)
    (fun e => raise (mkHTTPException 500
                       ("An error occurred during flashcard generation: " +:+ e))).

(** The route: the request body is validated into a [Package] first. *)
Definition post_generate_flashcards (body : Package.json)
    : Eff HTTPException FlashcardGenerationResponse.t :=
  generate_flashcards (Package.parse body).

(** ** GET /download/{filename} *)

(** [os.path.exists(path)]: a file or a directory is there. *)
Definition os_path_exists (path : string) (w : World) : bool :=
  bool_decide (is_Some (fs w !! path)) || is_dir env path.

(** The handler catches nothing: the exception of the [FileResponse]
    constructor leaves it as it is. *)
Definition download_file (filename : string) : Eff Raised FileResponse.t :=
  fun w =>
    let file_path := os_path_join (OUTPUT_FOLDER env) filename in
    if negb (os_path_exists file_path w) then
      (Raise (Http (mkHTTPException 404 "File not found")), w)
    else
      match new_FileResponse file_path filename "application/octet-stream"
              [("Content-Disposition"%string, "attachment; filename=" +:+ filename)] with
      | Return r => (Return r, w)
      | Raise text => (Raise (Uncaught text), w)
      end.

(** The bytes a [FileResponse] sends: the content of the file at its path;
    there are none to send when no file is stored there. *)
Definition response_body (r : FileResponse.t) (w : World) : option (list Byte.byte) :=
  fs w !! FileResponse.path r.

(** ** POST /upload_media/ *)

Definition upload_media (file : UploadFile.t) : Eff HTTPException MediaUploadResponse.t :=
  try_except
    (let file_path := os_path_join (OUTPUT_FOLDER env) (UploadFile.filename file) in
     write_file file_path (UploadFile.content file) ;;;
     ret (MediaUploadResponse.mk (UploadFile.filename file) "File uploaded successfully"))%eff
    (fun e => raise (mkHTTPException 500 e)).

(** ** GET / *)

Definition root : list (string * string) :=
  [("message", "Welcome to the Anki Flashcard Generator API")]%string.

End Handlers.

(** ** What one build call computes *)

Section Build.
Context (env : Environment).

(** The value of the k-th call of [random.randrange(1 << 30, 1 << 31)]
    made by the process. *)
Definition draw (k : nat) : Z := 2 ^ 30 + entropy env k mod (2 ^ 31 - 2 ^ 30).

(** The genanki deck built for an input deck whose id is the k-th draw. *)
Definition genanki_deck (model : genanki.Model.t) (k : nat) (deck : Deck.t) : genanki.Deck.t :=
  genanki.Deck.mk (draw k) (Deck.name deck) (Deck.description deck)
    (map (genanki_note model) (Deck.notes deck)).

(** The model, the decks and the filename of the build call started in
    world [w]. *)
Definition built_model (package : Package.t) (w : World) : genanki.Model.t :=
  build_model (draw (rand_calls w)) (Package.model package).

Definition built_decks (package : Package.t) (w : World) : list genanki.Deck.t :=
  imap (fun i deck => genanki_deck (built_model package w) (S (rand_calls w) + i) deck)
    (Package.decks package).

Definition built_filename (w : World) : string :=
  "flashcards_" +:+ uuid4_hex env (uuid_calls w) +:+ ".apkg".

Definition built_path (w : World) : string :=
  os_path_join (OUTPUT_FOLDER env) (built_filename w).

(** The note in position [j] of deck [i] of a list of genanki decks. *)
Definition note_at (decks : list genanki.Deck.t) (i j : nat) : option genanki.Note.t :=
  match decks !! i with
  | Some d => genanki.Deck.notes d !! j
  | None => None
  end.

(** The exception text with which the archive write fails, if it fails:
    the serializer's exception comes first, then the storage's. *)
Definition write_error (decks : list genanki.Deck.t) (path : string) : option string :=
  match genanki_error env decks with
  | Some e => Some e
  | None => open_error env path
  end.

(** A package is accepted in a world when the serializer accepts the decks
    built from it and the storage accepts the archive's path. *)
Definition accepted (package : Package.t) (w : World) : Prop :=
  write_error (built_decks package w) (built_path w) = None.

End Build.

(** The entry of the storage folder under a given name, as the claims speak
    of it: the folder's path, a separator unless that path is empty or ends
    with one, and the name. *)
Definition under_storage_root (env : Environment) (filename : string) : string :=
  OUTPUT_FOLDER env +:+
  (if (String.eqb (OUTPUT_FOLDER env) EmptyString || endswith_sep (OUTPUT_FOLDER env))%bool
   then EmptyString else "/"%string) +:+
  filename.

(** ** Note identifiers *)

Section Guid.
Context (env : Environment).

(** Modelled from the spec: the identifier of a note built without a GUID
    is synthesized inside the genanki library (main.py only passes
    [guid=note.guid] on), and that library is not among the sources.  The
    specification (section 3) has it as "a stable, deterministic identifier
    derived from the field values", a hash of the field values (section 9);
    the hash itself is the environment's [field_hash]. *)
Definition guid_for (fields : list string) : string := field_hash env fields.

(** Modelled from the spec: what the synthesized identifier is computed
    from, the note's field values (section 3). *)
Definition guid_source (n : genanki.Note.t) : list string := genanki.Note.fields n.

(** Modelled from the spec: the identifier a note carries in the package,
    the caller's GUID if there is one and the synthesized one otherwise
    (section 4.2, step 3). *)
Definition note_guid (n : genanki.Note.t) : string :=
  match genanki.Note.guid n with
  | Some g => g
  | None => guid_for (guid_source n)
  end.

End Guid.

(** ** Sample inputs *)

Module Sample.

Definition hex0 : string := "9f1c2d3e4a5b46c78d9e0f1a2b3c4d5e".
Definition hex1 : string := "0a1b2c3d4e5f4a6b8c7d9e0f1a2b3c4d".

Definition random0 : N := 0x9f1c2d3e4a5b46c78d9e0f1a2b3c4d5e.
Definition random1 : N := 0x0a1b2c3d4e5f4a6b8c7d9e0f1a2b3c4d.

(** A stand-in for the container format that cannot be read back: one
    marker byte per deck entry and per note. *)
Definition marker_bytes (a : Archive.t) : list Byte.byte :=
  map (fun _ => Byte.x44) (map_to_list (Archive.decks a)) ++
  map (fun _ => Byte.x4e) (Archive.notes a).

(** The deck entry genanki puts into every archive. *)
Definition default_deck : gmap Z Archive.deck_entry :=
  {[ 1 := Archive.mk_entry "Default" (Some EmptyString) ]}.

(** The directories around the storage folder "/tmp". *)
Definition tmp_dirs (path : string) : bool :=
  (String.eqb path "/" || String.eqb path "/tmp" || String.eqb path "/tmp/" ||
   String.eqb path "/tmp/.")%bool.

Definition join_fields (fields : list string) : string := String.concat "__" fields.

(** A generator whose successive values differ. *)
Definition env : Environment :=
  {| OUTPUT_FOLDER := "/tmp";
     entropy := fun k => 7919 * Z.of_nat k + 12345;
     urandom16 := fun k => match k with O => random0 | _ => random1 end;
     open_error := fun _ => None;
     is_dir := tmp_dirs;
     genanki_error := fun _ => None;
     library_decks := default_deck;
     apkg_encode := marker_bytes;
     apkg_decode := fun _ => None;
     field_hash := join_fields |}.

(** The same, with a generator that delivers the same value again. *)
Definition env_repeat : Environment :=
  {| OUTPUT_FOLDER := "/tmp";
     entropy := fun _ => 424242;
     urandom16 := fun k => match k with O => random0 | _ => random1 end;
     open_error := fun _ => None;
     is_dir := tmp_dirs;
     genanki_error := fun _ => None;
     library_decks := default_deck;
     apkg_encode := marker_bytes;
     apkg_decode := fun _ => None;
     field_hash := join_fields |}.

(** A serializer that checks every note's number of values against its
    model's number of fields and raises when they differ. *)
Definition field_count_error (decks : list genanki.Deck.t) : option string :=
  if forallb (fun d =>
       forallb (fun n =>
         Nat.eqb (length (genanki.Note.fields n))
                 (length (genanki.Model.fields (genanki.Note.model n))))
         (genanki.Deck.notes d)) decks
  then None
  else Some "Number of fields in Model does not match number of fields in Note"%string.

Definition env_strict : Environment :=
  {| OUTPUT_FOLDER := "/tmp";
     entropy := fun k => 7919 * Z.of_nat k + 12345;
     urandom16 := fun k => match k with O => random0 | _ => random1 end;
     open_error := fun _ => None;
     is_dir := tmp_dirs;
     genanki_error := field_count_error;
     library_decks := default_deck;
     apkg_encode := marker_bytes;
     apkg_decode := fun _ => None;
     field_hash := join_fields |}.

(** A storage folder that cannot be written. *)
Definition env_readonly : Environment :=
  {| OUTPUT_FOLDER := "/srv/out";
     entropy := fun k => 7919 * Z.of_nat k + 12345;
     urandom16 := fun k => match k with O => random0 | _ => random1 end;
     open_error := fun _ => Some "[Errno 13] Permission denied"%string;
     is_dir := fun path => String.eqb path "/srv/out";
     genanki_error := fun _ => None;
     library_decks := default_deck;
     apkg_encode := marker_bytes;
     apkg_decode := fun _ => None;
     field_hash := join_fields |}.

(** A container format that can be read back: the archive content is
    numbered, and the number is written bit by bit. *)
#[global] Instance deck_entry_eq_dec : EqDecision Archive.deck_entry.
Proof. solve_decision. Defined.

#[global] Instance deck_entry_countable : Countable Archive.deck_entry :=
  inj_countable'
    (fun e => (Archive.name e, Archive.description e))
    (fun p => Archive.mk_entry (fst p) (snd p))
    (fun e => match e with Archive.mk_entry _ _ => eq_refl end).

#[global] Instance model_eq_dec : EqDecision genanki.Model.t.
Proof. solve_decision. Defined.

#[global] Instance model_countable : Countable genanki.Model.t :=
  inj_countable'
    (fun m => (genanki.Model.model_id m, genanki.Model.name m, genanki.Model.fields m,
               genanki.Model.templates m, genanki.Model.css m))
    (fun p => match p with (i, n, f, t, c) => genanki.Model.mk i n f t c end)
    (fun m => match m with genanki.Model.mk _ _ _ _ _ => eq_refl end).

#[global] Instance note_eq_dec : EqDecision genanki.Note.t.
Proof. solve_decision. Defined.

#[global] Instance note_countable : Countable genanki.Note.t :=
  inj_countable'
    (fun n => (genanki.Note.model n, genanki.Note.fields n, genanki.Note.tags n,
               genanki.Note.guid n))
    (fun p => match p with (m, f, t, g) => genanki.Note.mk m f t g end)
    (fun n => match n with genanki.Note.mk _ _ _ _ => eq_refl end).

#[global] Instance archive_eq_dec : EqDecision Archive.t.
Proof. solve_decision. Defined.

#[global] Instance archive_countable : Countable Archive.t :=
  inj_countable'
    (fun a => (Archive.decks a, Archive.notes a))
    (fun p => Archive.mk (fst p) (snd p))
    (fun a => match a with Archive.mk _ _ => eq_refl end).







Definition world : World := mkWorld ∅ 0 0.

Definition basic_model : ModelDefinition.t :=
  ModelDefinition.mk "Basic Model" ["Front"; "Back"]%string
    [CardTemplate.mk "Card 1" "{{Front}}" "{{FrontSide}}<hr id='answer'>{{Back}}"]
    (Some ".card { font-family: arial; font-size: 20px; }"%string).

Definition paris : Note.t :=
  Note.mk ["What is the capital of France?"; "Paris"]%string
    (Some ["geography"; "europe"]%string) None.

Definition rome : Note.t :=
  Note.mk ["What is the capital of Italy?"; "Rome"]%string (Some []) None.

Definition oslo : Note.t :=
  Note.mk ["What is the capital of Norway?"; "Oslo"]%string (Some [])
    (Some "unique_identifier_123"%string).

(** One value for a model of two fields. *)
Definition short_note : Note.t :=
  Note.mk ["Only a front"]%string (Some []) None.

(** Three values for a model of two fields. *)
Definition long_note : Note.t :=
  Note.mk ["Front"; "Back"; "Extra"]%string (Some []) None.

Definition geography : Deck.t :=
  Deck.mk "Geography Deck" (Some "A deck for learning world geography"%string) [paris; rome].

Definition capitals : Deck.t :=
  Deck.mk "Capitals" (Some EmptyString) [oslo; paris; rome].

Definition package : Package.t := Package.mk [geography; capitals] basic_model.

Definition package_mismatch : Package.t :=
  Package.mk [Deck.mk "Odd" (Some EmptyString) [short_note; long_note]] basic_model.

(** A request body that leaves out every optional member. *)
Definition bare_body : Package.json :=
  Package.mk_json
    [Deck.mk_json "Bare" Omitted [Note.mk_json ["Q"; "A"]%string Omitted Omitted]]
    (ModelDefinition.mk_json "Bare Model" ["Front"; "Back"]%string [] Omitted).

End Sample.

(** Worlds reached from the sample world. *)
Module SampleRuns.

Definition after_build : World :=
  snd (generate_flashcards Sample.env Sample.package Sample.world).

Definition after_two_builds : World :=
  snd (generate_flashcards Sample.env Sample.package_mismatch after_build).

Definition first_response : FlashcardGenerationResponse.t :=
  FlashcardGenerationResponse.mk "Flashcards generated successfully"
    "https://anki-gen5.onrender.com/download/flashcards_9f1c2d3e4a5b46c78d9e0f1a2b3c4d5e.apkg".

Definition second_response : FlashcardGenerationResponse.t :=
  FlashcardGenerationResponse.mk "Flashcards generated successfully"
    "https://anki-gen5.onrender.com/download/flashcards_0a1b2c3d4e5f4a6b8c7d9e0f1a2b3c4d.apkg".

(** A storage that already holds one media file. *)
Definition with_media : World := mkWorld {["/tmp/cat.png"%string := [Byte.x01]]} 0 0.

(** A name with a character above U+00FF (U+0142, in UTF-8), and a storage
    that holds a file of that name. *)
Definition wide_name : string := String (ascii_of_N 197) (String (ascii_of_N 130) ".png").

Definition with_wide_name : World :=
  mkWorld {[("/tmp/" +:+ wide_name)%string := [Byte.x01]]} 0 0.

(** A request body that sets every optional member to [null]. *)
Definition null_body : Package.json :=
  Package.mk_json
    [Deck.mk_json "Nulls" Null [Note.mk_json ["Q"; "A"]%string Null Null]]
    (ModelDefinition.mk_json "Null Model" ["Front"; "Back"]%string [] Null).

End SampleRuns.

(** * Properties *)

(** ** The build call, step by step *)

Section BuildFacts.
Context (env : Environment).

Lemma add_notes_spec model notes d :
  add_notes model notes d =
  genanki.Deck.mk (genanki.Deck.deck_id d) (genanki.Deck.name d) (genanki.Deck.description d)
    (genanki.Deck.notes d ++ map (genanki_note model) notes).
Proof.
  revert d. induction notes as [|note rest IH]; intros d; simpl.
  - rewrite app_nil_r. by destruct d.
  - rewrite IH. simpl. by rewrite <- app_assoc.
Qed.

Lemma randrange_ids w :
  randrange env (2 ^ 30) (2 ^ 31) w =
  (Return (draw env (rand_calls w)), mkWorld (fs w) (S (rand_calls w)) (uuid_calls w)).
Proof. reflexivity. Qed.

Lemma build_decks_spec model decks acc w :
  build_decks env model decks acc w =
  (Return (acc ++ imap (fun i deck => genanki_deck env model (rand_calls w + i) deck) decks),
   mkWorld (fs w) (rand_calls w + length decks) (uuid_calls w)).
Proof.
  revert acc w. induction decks as [|deck rest IH]; intros acc w.
  - simpl. unfold ret. rewrite app_nil_r, Nat.add_0_r. by destruct w.
  - cbn [build_decks]. unfold bind at 1. rewrite randrange_ids.
    rewrite IH. cbn [fs rand_calls uuid_calls length].
    rewrite imap_cons, <- app_assoc. cbn [app].
    rewrite add_notes_spec. cbn [genanki.Deck.new genanki.Deck.deck_id genanki.Deck.name
      genanki.Deck.description genanki.Deck.notes app].
    unfold genanki_deck at 2. rewrite Nat.add_0_r.
    f_equal; [|f_equal; lia].
    do 3 f_equal. apply imap_ext. intros i x _. simpl. f_equal. lia.
Qed.

Lemma assemble_spec package w :
  assemble env package w =
  (Return (built_filename env w, built_model env package w, built_decks env package w),
   mkWorld (fs w) (S (rand_calls w) + length (Package.decks package)) (S (uuid_calls w))).
Proof.
  unfold assemble, bind, uuid4. rewrite randrange_ids. cbn [fs rand_calls uuid_calls].
  rewrite build_decks_spec. reflexivity.
Qed.

Lemma generate_flashcards_body_spec package w :
  generate_flashcards_body env package w =
  let w1 := mkWorld (fs w) (S (rand_calls w) + length (Package.decks package))
              (S (uuid_calls w)) in
  match write_error env (built_decks env package w) (built_path env w) with
  | Some e => (Raise e, w1)
  | None =>
      (Return (FlashcardGenerationResponse.mk "Flashcards generated successfully"
                 (base_url +:+ "/download/" +:+ built_filename env w)),
       mkWorld (<[built_path env w := apkg_bytes env (built_decks env package w)]> (fs w))
         (rand_calls w1) (uuid_calls w1))
  end.
Proof.
  unfold generate_flashcards_body, bind at 1. rewrite assemble_spec.
  unfold bind, write_error, write_to_file, built_path.
  destruct (genanki_error env (built_decks env package w)) as [e|]; [reflexivity|].
  unfold write_file.
  destruct (open_error env _) as [e|]; reflexivity.
Qed.

Lemma generate_flashcards_spec package w :
  generate_flashcards env package w =
  match generate_flashcards_body env package w with
  | (Return resp, w') => (Return resp, w')
  | (Raise e, w') =>
      (Raise (mkHTTPException 500 ("An error occurred during flashcard generation: " +:+ e)), w')
  end.
Proof. reflexivity. Qed.

Lemma built_decks_length package w :
  length (built_decks env package w) = length (Package.decks package).
Proof. unfold built_decks. apply length_imap. Qed.

Lemma built_decks_lookup package w i deck :
  Package.decks package !! i = Some deck ->
  built_decks env package w !! i =
  Some (genanki_deck env (built_model env package w) (S (rand_calls w) + i) deck).
Proof. intros H. unfold built_decks. by rewrite list_lookup_imap, H. Qed.

Lemma built_decks_lookup_inv package w i d :
  built_decks env package w !! i = Some d ->
  exists deck, Package.decks package !! i = Some deck /\
    d = genanki_deck env (built_model env package w) (S (rand_calls w) + i) deck.
Proof.
  unfold built_decks. rewrite list_lookup_imap.
  destruct (Package.decks package !! i) as [deck|]; simpl; [|done].
  intros [= <-]. eauto.
Qed.

Lemma built_note_lookup package w i j deck note :
  Package.decks package !! i = Some deck ->
  Deck.notes deck !! j = Some note ->
  note_at (built_decks env package w) i j =
  Some (genanki_note (built_model env package w) note).
Proof.
  intros Hd Hn. unfold note_at. rewrite (built_decks_lookup _ _ _ _ Hd).
  simpl. by rewrite list_lookup_fmap, Hn.
Qed.

Lemma generate_flashcards_accepted package w :
  accepted env package w ->
  generate_flashcards env package w =
  (Return (FlashcardGenerationResponse.mk "Flashcards generated successfully"
             (base_url +:+ "/download/" +:+ built_filename env w)),
   mkWorld (<[built_path env w := apkg_bytes env (built_decks env package w)]> (fs w))
     (S (rand_calls w) + length (Package.decks package)) (S (uuid_calls w))).
Proof.
  intros Hacc. rewrite generate_flashcards_spec, generate_flashcards_body_spec.
  cbv zeta. unfold accepted in Hacc. rewrite Hacc. reflexivity.
Qed.

Lemma generate_flashcards_return package w resp w' :
  generate_flashcards env package w = (Return resp, w') ->
  accepted env package w.
Proof.
  rewrite generate_flashcards_spec, generate_flashcards_body_spec. cbv zeta.
  unfold accepted. destruct (write_error env _ _); [discriminate|done].
Qed.

End BuildFacts.

Example sample_build :
  fst (generate_flashcards Sample.env Sample.package Sample.world) =
  Return (FlashcardGenerationResponse.mk "Flashcards generated successfully"
    "https://anki-gen5.onrender.com/download/flashcards_9f1c2d3e4a5b46c78d9e0f1a2b3c4d5e.apkg").
Proof. reflexivity. Qed.

Example sample_build_ids :
  genanki.Model.model_id (built_model Sample.env Sample.package Sample.world) = 1073754169 /\
  map genanki.Deck.deck_id (built_decks Sample.env Sample.package Sample.world) =
    [1073762088; 1073770007].
Proof. split; reflexivity. Qed.

Example sample_uuids :
  uuid4_hex Sample.env 0 = Sample.hex0 /\ uuid4_hex Sample.env 1 = Sample.hex1 /\
  hex_digits 32 (uuid4_int 0) EmptyString = "00000000000040008000000000000000"%string.
Proof. repeat split. Qed.

Example sample_path :
  built_path Sample.env Sample.world = "/tmp/flashcards_9f1c2d3e4a5b46c78d9e0f1a2b3c4d5e.apkg"%string.
Proof. reflexivity. Qed.

(** ** Note identifiers (C2) *)

(** C2. A note supplied without a GUID reaches the package without one, with
    its field values unchanged, so its identifier is the one synthesized
    from those values.  For two such notes, in the same or in different
    build calls: equal field values give equal identifiers, and different
    field values give different sources of the identifier. *)
Theorem synthesized_guid_deterministic env p1 w1 p2 w2 i1 j1 i2 j2 d1 d2 n1 n2 :
  Package.decks p1 !! i1 = Some d1 -> Deck.notes d1 !! j1 = Some n1 ->
  Package.decks p2 !! i2 = Some d2 -> Deck.notes d2 !! j2 = Some n2 ->
  Note.guid n1 = None -> Note.guid n2 = None ->
  exists r1 r2 g1 g2,
    fst (assemble env p1 w1) = Return r1 /\ note_at (snd r1) i1 j1 = Some g1 /\
    fst (assemble env p2 w2) = Return r2 /\ note_at (snd r2) i2 j2 = Some g2 /\
    note_guid env g1 = guid_for env (Note.fields n1) /\
    note_guid env g2 = guid_for env (Note.fields n2) /\
    guid_source g1 = Note.fields n1 /\
    guid_source g2 = Note.fields n2 /\
    (Note.fields n1 = Note.fields n2 -> note_guid env g1 = note_guid env g2) /\
    (Note.fields n1 <> Note.fields n2 -> guid_source g1 <> guid_source g2).
Proof.
  intros Hd1 Hn1 Hd2 Hn2 Hg1 Hg2.
  do 2 eexists.
  exists (genanki_note (built_model env p1 w1) n1), (genanki_note (built_model env p2 w2) n2).
  rewrite !assemble_spec. cbn [fst snd].
  split; [reflexivity|]. split; [by apply (built_note_lookup env p1 w1 i1 j1 d1)|].
  split; [reflexivity|]. split; [by apply (built_note_lookup env p2 w2 i2 j2 d2)|].
  unfold note_guid, guid_source. cbn [genanki_note genanki.Note.guid genanki.Note.fields].
  rewrite Hg1, Hg2. repeat split; try done.
  intros ->. reflexivity.
Qed.

Lemma synthesized_guid_deterministic_witness :
  exists r1 r2 g1 g2,
    fst (assemble Sample.env Sample.package Sample.world) = Return r1 /\
    note_at (snd r1) 0 0 = Some g1 /\
    fst (assemble Sample.env Sample.package (mkWorld ∅ 7 3)) = Return r2 /\
    note_at (snd r2) 1 1 = Some g2 /\
    note_guid Sample.env g1 = guid_for Sample.env (Note.fields Sample.paris) /\
    note_guid Sample.env g2 = guid_for Sample.env (Note.fields Sample.paris) /\
    guid_source g1 = Note.fields Sample.paris /\
    guid_source g2 = Note.fields Sample.paris /\
    (Note.fields Sample.paris = Note.fields Sample.paris ->
     note_guid Sample.env g1 = note_guid Sample.env g2) /\
    (Note.fields Sample.paris <> Note.fields Sample.paris ->
     guid_source g1 <> guid_source g2).
Proof.
  apply (synthesized_guid_deterministic Sample.env
           Sample.package Sample.world Sample.package (mkWorld ∅ 7 3)
           0%nat 0%nat 1%nat 1%nat Sample.geography Sample.capitals Sample.paris Sample.paris);
    reflexivity.
Defined.

Example sample_guids :
  map (note_guid Sample.env)
    (genanki.Deck.notes
       (genanki_deck Sample.env (built_model Sample.env Sample.package Sample.world) 2
          Sample.capitals)) =
  ["unique_identifier_123"; "What is the capital of France?__Paris";
   "What is the capital of Italy?__Rome"]%string.
Proof. reflexivity. Qed.

(** ** Deck identifiers (C3) *)

Lemma draw_range env k : 2 ^ 30 <= draw env k < 2 ^ 31.
Proof.
  unfold draw.
  pose proof (Z.mod_pos_bound (entropy env k) (2 ^ 31 - 2 ^ 30) ltac:(lia)). lia.
Qed.

Lemma built_deck_ids env package w :
  map genanki.Deck.deck_id (built_decks env package w) =
  map (fun i => draw env (S (rand_calls w) + i)) (seq 0 (length (Package.decks package))).
Proof.
  unfold built_decks.
  change (map genanki.Deck.deck_id ?l) with (genanki.Deck.deck_id <$> l).
  rewrite fmap_imap.
  rewrite (imap_ext _ (fun i _ => draw env (S (rand_calls w) + i))) by done.
  rewrite imap_seq_0. reflexivity.
Qed.

(** C3, as the code has it.  Every deck of a build call gets its own draw
    from [2^30, 2^31): the id of deck [i] is the draw that follows the
    model's by [i + 1].  The ids of a call are pairwise distinct exactly when
    the generator's values for them are pairwise distinct modulo the width
    of the range; nothing in the call makes them so. *)
Theorem deck_ids_are_successive_draws env package w :
  exists r,
    fst (assemble env package w) = Return r /\
    map genanki.Deck.deck_id (snd r) =
      map (fun i => draw env (S (rand_calls w) + i))
        (seq 0 (length (Package.decks package))) /\
    Forall (fun id => 2 ^ 30 <= id < 2 ^ 31) (map genanki.Deck.deck_id (snd r)) /\
    (NoDup (map genanki.Deck.deck_id (snd r)) <->
     NoDup (map (fun i => entropy env (S (rand_calls w) + i) mod (2 ^ 31 - 2 ^ 30))
              (seq 0 (length (Package.decks package))))).
Proof.
  exists (built_filename env w, built_model env package w, built_decks env package w).
  rewrite assemble_spec. cbn [fst snd].
  split; [reflexivity|]. rewrite built_deck_ids.
  split; [reflexivity|]. split.
  - apply Forall_forall. intros id Hin.
    apply list_elem_of_fmap in Hin as (i & -> & _). apply draw_range.
  - unfold draw.
    change (map (fun i => 2 ^ 30 + entropy env (S (rand_calls w) + i) mod (2 ^ 31 - 2 ^ 30)) ?l)
      with ((Z.add (2 ^ 30) ∘
             (fun i => entropy env (S (rand_calls w) + i) mod (2 ^ 31 - 2 ^ 30))) <$> l).
    rewrite list_fmap_compose.
    assert (Inj (=) (=) (Z.add (2 ^ 30))) by (intros x y Hxy; lia).
    apply (NoDup_fmap (Z.add (2 ^ 30))).
Qed.

(** C3 as stated fails: with a generator that delivers the same value
    twice, the two decks of one build call get the same id. *)
Lemma deck_ids_collide :
  exists r,
    fst (assemble Sample.env_repeat Sample.package Sample.world) = Return r /\
    (2 <= length (Package.decks Sample.package))%nat /\
    map genanki.Deck.deck_id (snd r) = [1074166066; 1074166066] /\
    ~ NoDup (map genanki.Deck.deck_id (snd r)).
Proof.
  eexists. split; [reflexivity|]. split; [simpl; lia|]. split; [reflexivity|].
  cbn. intros H. apply NoDup_cons in H as [Hnin _]. apply Hnin. left.
Qed.

Example sample_deck_ids_distinct :
  NoDup (map genanki.Deck.deck_id (built_decks Sample.env Sample.package Sample.world)).
Proof. apply (bool_decide_unpack _). vm_compute. exact I. Qed.

(** ** Archive contents (C1) *)











Example sample_archive :
  snd (generate_flashcards Sample.env Sample.package Sample.world) =
  mkWorld
    (<["/tmp/flashcards_9f1c2d3e4a5b46c78d9e0f1a2b3c4d5e.apkg"%string :=
         [Byte.x44; Byte.x44; Byte.x44; Byte.x4e; Byte.x4e; Byte.x4e; Byte.x4e; Byte.x4e]]> ∅)
    3 1.
Proof. vm_compute. reflexivity. Qed.

(** ** Download (C4) *)

(** How filenames resolve: a plain name lands in the storage folder; a name
    that starts with the separator replaces the folder (the route's path
    parameter cannot carry one). *)
Example os_path_join_samples :
  os_path_join "/tmp" "a.apkg" = "/tmp/a.apkg"%string /\
  os_path_join "/tmp/" "a.apkg" = "/tmp/a.apkg"%string /\
  os_path_join EmptyString "a.apkg" = "a.apkg"%string /\
  os_path_join "/tmp" "/etc/passwd" = "/etc/passwd"%string.
Proof. repeat split. Qed.

Lemma os_path_join_under_root env filename :
  startswith_sep filename = false ->
  os_path_join (OUTPUT_FOLDER env) filename = under_storage_root env filename.
Proof.
  intros Hrel. unfold os_path_join, under_storage_root. rewrite Hrel.
  by destruct (String.eqb (OUTPUT_FOLDER env) EmptyString || endswith_sep (OUTPUT_FOLDER env))%bool.
Qed.

Lemma latin1_append a b :
  latin1_encodable (a +:+ b) = (latin1_encodable a && latin1_encodable b)%bool.
Proof. induction a as [|c a IH]; simpl; [done|]. by rewrite IH, andb_assoc. Qed.

Lemma hex_digit_latin1 d : (N_of_ascii (hex_digit d) <? 196)%N = true.
Proof.
  unfold hex_digit.
  repeat match goal with |- context [match ?x with _ => _ end] => destruct x end;
    reflexivity.
Qed.

Lemma hex_digits_latin1 n v acc :
  latin1_encodable acc = true -> latin1_encodable (hex_digits n v acc) = true.
Proof.
  revert v acc. induction n as [|n IH]; intros v acc Hacc; simpl; [done|].
  apply IH. simpl. by rewrite hex_digit_latin1, Hacc.
Qed.

Lemma built_filename_latin1 env w : latin1_encodable (built_filename env w) = true.
Proof.
  unfold built_filename, uuid4_hex. rewrite !latin1_append.
  rewrite hex_digits_latin1 by done. reflexivity.
Qed.

Lemma os_path_exists_spec env path w :
  os_path_exists env path w = true <-> is_Some (fs w !! path) \/ is_dir env path = true.
Proof.
  unfold os_path_exists. rewrite orb_true_iff, bool_decide_eq_true. done.
Qed.

Lemma os_path_exists_false env path w :
  os_path_exists env path w = false <-> fs w !! path = None /\ is_dir env path = false.
Proof.
  unfold os_path_exists. rewrite orb_false_iff, bool_decide_eq_false.
  by rewrite <- eq_None_not_Some.
Qed.

Lemma attachment_response path filename :
  latin1_encodable filename = true ->
  new_FileResponse path filename "application/octet-stream"
    [("Content-Disposition"%string, "attachment; filename=" +:+ filename)] =
  Return (FileResponse.mk path filename "application/octet-stream"
            [("Content-Disposition"%string, "attachment; filename=" +:+ filename)]).
Proof.
  intros Hname. unfold new_FileResponse. cbn [forallb fst snd].
  rewrite latin1_append, Hname. reflexivity.
Qed.

Lemma download_file_missing env filename w :
  os_path_exists env (os_path_join (OUTPUT_FOLDER env) filename) w = false ->
  download_file env filename w = (Raise (Http (mkHTTPException 404 "File not found")), w).
Proof. intros Hex. unfold download_file. by rewrite Hex. Qed.

Lemma download_file_present env filename w :
  os_path_exists env (os_path_join (OUTPUT_FOLDER env) filename) w = true ->
  latin1_encodable filename = true ->
  download_file env filename w =
  (Return (FileResponse.mk (os_path_join (OUTPUT_FOLDER env) filename) filename
             "application/octet-stream"
             [("Content-Disposition"%string, "attachment; filename=" +:+ filename)]), w).
Proof.
  intros Hex Hname. unfold download_file. rewrite Hex. cbn [negb].
  by rewrite (attachment_response _ _ Hname).
Qed.

Lemma download_file_http_error env filename w e :
  fst (download_file env filename w) = Raise (Http e) ->
  e = mkHTTPException 404 "File not found" /\
  os_path_exists env (os_path_join (OUTPUT_FOLDER env) filename) w = false.
Proof.
  unfold download_file.
  destruct (os_path_exists env _ w); cbn [negb].
  - destruct (new_FileResponse _ _ _ _); cbn; discriminate.
  - cbn. by intros [= <-].
Qed.

Lemma download_file_found env filename w data :
  fs w !! os_path_join (OUTPUT_FOLDER env) filename = Some data ->
  latin1_encodable filename = true ->
  exists r, download_file env filename w = (Return r, w) /\ response_body r w = Some data.
Proof.
  intros Hdata Hname. rewrite download_file_present; [|apply os_path_exists_spec; eauto|done].
  eexists. split; [reflexivity|]. exact Hdata.
Qed.

(** C4, as the code has it.  For a filename that does not start with the
    separator, [download_file] answers 404 "File not found" exactly when
    nothing, neither a file nor a directory, is at the entry of that name in
    the storage folder, and it raises no other HTTPException.  When a file is
    stored there and the filename can be encoded in latin-1, the response is
    an attachment under that filename whose body is the file's bytes, and
    the storage is left as it was. *)
Theorem download_file_under_storage_root env filename w :
  startswith_sep filename = false ->
  (fst (download_file env filename w) = Raise (Http (mkHTTPException 404 "File not found")) <->
   fs w !! under_storage_root env filename = None /\
   is_dir env (under_storage_root env filename) = false) /\
  (forall e, fst (download_file env filename w) = Raise (Http e) ->
     e = mkHTTPException 404 "File not found") /\
  (forall data,
     fs w !! under_storage_root env filename = Some data ->
     latin1_encodable filename = true ->
     exists r,
       download_file env filename w = (Return r, w) /\
       response_body r w = Some data /\
       FileResponse.path r = under_storage_root env filename /\
       FileResponse.filename r = filename /\
       FileResponse.media_type r = "application/octet-stream"%string /\
       FileResponse.headers r =
         [("Content-Disposition"%string, "attachment; filename=" +:+ filename)]).
Proof.
  intros Hrel. rewrite <- (os_path_join_under_root env filename Hrel).
  split; [split|split].
  - intros H. apply download_file_http_error in H as [_ H].
    by apply os_path_exists_false in H.
  - intros H. apply os_path_exists_false in H. by rewrite download_file_missing.
  - intros e H. by apply download_file_http_error in H as [-> _].
  - intros data Hdata Hname.
    rewrite download_file_present; [|apply os_path_exists_spec; eauto|done].
    eexists. split; [reflexivity|]. by repeat split.
Qed.

Lemma download_file_under_storage_root_witness :
  startswith_sep (built_filename Sample.env Sample.world) = false /\
  (fst (download_file Sample.env (built_filename Sample.env Sample.world)
          SampleRuns.after_build) =
     Raise (Http (mkHTTPException 404 "File not found")) <->
   fs SampleRuns.after_build
     !! under_storage_root Sample.env (built_filename Sample.env Sample.world) = None /\
   is_dir Sample.env
     (under_storage_root Sample.env (built_filename Sample.env Sample.world)) = false) /\
  (forall e,
     fst (download_file Sample.env (built_filename Sample.env Sample.world)
            SampleRuns.after_build) = Raise (Http e) ->
     e = mkHTTPException 404 "File not found") /\
  (forall data,
     fs SampleRuns.after_build
       !! under_storage_root Sample.env (built_filename Sample.env Sample.world) =
       Some data ->
     latin1_encodable (built_filename Sample.env Sample.world) = true ->
     exists r,
       download_file Sample.env (built_filename Sample.env Sample.world)
         SampleRuns.after_build = (Return r, SampleRuns.after_build) /\
       response_body r SampleRuns.after_build = Some data /\
       FileResponse.path r =
         under_storage_root Sample.env (built_filename Sample.env Sample.world) /\
       FileResponse.filename r = built_filename Sample.env Sample.world /\
       FileResponse.media_type r = "application/octet-stream"%string /\
       FileResponse.headers r =
         [("Content-Disposition"%string,
           "attachment; filename=" +:+ built_filename Sample.env Sample.world)]).
Proof.
  split; [reflexivity|].
  apply (download_file_under_storage_root Sample.env
           (built_filename Sample.env Sample.world) SampleRuns.after_build).
  reflexivity.
Defined.

Example download_of_stored_archive :
  exists r,
    download_file Sample.env "flashcards_9f1c2d3e4a5b46c78d9e0f1a2b3c4d5e.apkg"
      SampleRuns.after_build = (Return r, SampleRuns.after_build) /\
    FileResponse.path r = "/tmp/flashcards_9f1c2d3e4a5b46c78d9e0f1a2b3c4d5e.apkg"%string /\
    response_body r SampleRuns.after_build =
      Some [Byte.x44; Byte.x44; Byte.x44; Byte.x4e; Byte.x4e; Byte.x4e; Byte.x4e; Byte.x4e].
Proof. eexists. split; [vm_compute; reflexivity|]. split; vm_compute; reflexivity. Qed.

(** C4 as stated fails: no file named "." is stored in the storage folder,
    yet the call does not answer 404, because the path is a directory; the
    response it returns has no bytes to send. *)
Lemma download_of_a_directory_is_not_404 :
  startswith_sep "." = false /\
  fs Sample.world !! under_storage_root Sample.env "." = None /\
  fst (download_file Sample.env "." Sample.world) <>
    Raise (Http (mkHTTPException 404 "File not found")) /\
  exists r,
    download_file Sample.env "." Sample.world = (Return r, Sample.world) /\
    FileResponse.path r = "/tmp/."%string /\
    response_body r Sample.world = None.
Proof.
  split; [reflexivity|]. split; [reflexivity|]. split; [discriminate|].
  eexists. split; [reflexivity|]. split; reflexivity.
Qed.

(** A stored file whose name cannot be encoded in latin-1 is not served: the
    constructor of the response raises. *)
Example download_of_a_wide_name :
  fs SampleRuns.with_wide_name !! under_storage_root Sample.env SampleRuns.wide_name =
    Some [Byte.x01] /\
  download_file Sample.env SampleRuns.wide_name SampleRuns.with_wide_name =
    (Raise (Uncaught "'latin-1' codec can't encode characters: ordinal not in range(256)"),
     SampleRuns.with_wide_name).
Proof. split; vm_compute; reflexivity. Qed.

Example download_never_built :
  fst (download_file Sample.env "flashcards_0000.apkg" Sample.world) =
  Raise (Http (mkHTTPException 404 "File not found")).
Proof. reflexivity. Qed.

(** X7. Downloading the name returned by a build call, right after it,
    serves the bytes that the call wrote. *)
Lemma download_after_build env package w resp w' :
  generate_flashcards env package w = (Return resp, w') ->
  exists r,
    download_file env (built_filename env w) w' = (Return r, w') /\
    response_body r w' = Some (apkg_bytes env (built_decks env package w)).
Proof.
  intros Hgen. pose proof (generate_flashcards_return _ _ _ _ _ Hgen) as Hacc.
  rewrite (generate_flashcards_accepted _ _ _ Hacc) in Hgen.
  injection Hgen as _ <-.
  apply download_file_found; [|apply built_filename_latin1].
  cbn [fs]. apply lookup_insert_eq.
Qed.

(** ** Failures of the build (C6) *)

(** C6. Whenever a step of the build raises, with whatever exception text,
    [generate_flashcards] answers with the one HTTPException of status 500
    whose detail is the fixed prefix followed by that text, and returns no
    response, hence no download URL.  Conversely a response, and with it the
    filename, is returned only when the archive has been written in full:
    the file named in the URL is then stored with the complete archive. *)
Theorem build_failure_is_internal_error env package w :
  (forall e w',
     generate_flashcards_body env package w = (Raise e, w') ->
     generate_flashcards env package w =
       (Raise (mkHTTPException 500
                 ("An error occurred during flashcard generation: " +:+ e)), w') /\
     (forall resp, fst (generate_flashcards env package w) <> Return resp)) /\
  (forall resp w',
     generate_flashcards env package w = (Return resp, w') ->
     generate_flashcards_body env package w = (Return resp, w') /\
     exists filename decks,
       fst (assemble env package w) = Return (filename, built_model env package w, decks) /\
       FlashcardGenerationResponse.download_url resp = base_url +:+ "/download/" +:+ filename /\
       fs w' !! os_path_join (OUTPUT_FOLDER env) filename = Some (apkg_bytes env decks)).
Proof.
  split.
  - intros e w' Hbody. rewrite generate_flashcards_spec, Hbody.
    split; [reflexivity|]. discriminate.
  - intros resp w' Hgen. split.
    + rewrite generate_flashcards_spec in Hgen.
      destruct (generate_flashcards_body env package w) as [[r|e] w1]; [|discriminate Hgen].
      by injection Hgen as -> ->.
    + pose proof (generate_flashcards_return _ _ _ _ _ Hgen) as Hacc.
      rewrite (generate_flashcards_accepted _ _ _ Hacc) in Hgen.
      injection Hgen as <- <-.
      exists (built_filename env w), (built_decks env package w).
      rewrite assemble_spec. split; [reflexivity|]. split; [reflexivity|].
      cbn [fs]. apply lookup_insert_eq.
Qed.

Lemma build_failure_is_internal_error_witness :
  generate_flashcards_body Sample.env_readonly Sample.package Sample.world =
    (Raise "[Errno 13] Permission denied"%string, mkWorld ∅ 3 1) /\
  generate_flashcards Sample.env_readonly Sample.package Sample.world =
    (Raise (mkHTTPException 500
       ("An error occurred during flashcard generation: " +:+ "[Errno 13] Permission denied")),
     mkWorld ∅ 3 1) /\
  (forall resp,
     fst (generate_flashcards Sample.env_readonly Sample.package Sample.world) <> Return resp).
Proof.
  split; [vm_compute; reflexivity|].
  apply (build_failure_is_internal_error Sample.env_readonly Sample.package Sample.world).
  vm_compute. reflexivity.
Defined.

Example serializer_failure_is_internal_error :
  fst (generate_flashcards Sample.env_strict Sample.package_mismatch Sample.world) =
  Raise (mkHTTPException 500
    "An error occurred during flashcard generation: Number of fields in Model does not match number of fields in Note").
Proof. reflexivity. Qed.

(** ** Uploads (C7) *)

Lemma upload_media_spec env file w :
  upload_media env file w =
  match open_error env (os_path_join (OUTPUT_FOLDER env) (UploadFile.filename file)) with
  | Some e => (Raise (mkHTTPException 500 e), w)
  | None =>
      (Return (MediaUploadResponse.mk (UploadFile.filename file) "File uploaded successfully"),
       mkWorld (<[os_path_join (OUTPUT_FOLDER env) (UploadFile.filename file) :=
                    UploadFile.content file]> (fs w))
         (rand_calls w) (uuid_calls w))
  end.
Proof.
  unfold upload_media, try_except, bind, write_file.
  destruct (open_error env _); reflexivity.
Qed.

(** C7. Two uploads in a row under one filename, in a storage folder that
    can be written at that name: both calls return the success response,
    whether or not a file of that name was stored before, and afterwards the
    file holds exactly the bytes of the second call; the storage differs
    from the initial one in that file only. *)
Theorem upload_media_overwrites env f1 f2 w :
  UploadFile.filename f1 = UploadFile.filename f2 ->
  open_error env (os_path_join (OUTPUT_FOLDER env) (UploadFile.filename f2)) = None ->
  exists w1 w2,
    upload_media env f1 w =
      (Return (MediaUploadResponse.mk (UploadFile.filename f1) "File uploaded successfully"),
       w1) /\
    upload_media env f2 w1 =
      (Return (MediaUploadResponse.mk (UploadFile.filename f2) "File uploaded successfully"),
       w2) /\
    fs w1 !! os_path_join (OUTPUT_FOLDER env) (UploadFile.filename f2) =
      Some (UploadFile.content f1) /\
    fs w2 !! os_path_join (OUTPUT_FOLDER env) (UploadFile.filename f2) =
      Some (UploadFile.content f2) /\
    fs w2 = <[os_path_join (OUTPUT_FOLDER env) (UploadFile.filename f2) :=
                UploadFile.content f2]> (fs w).
Proof.
  intros Hname Hopen. do 2 eexists.
  rewrite !upload_media_spec, Hname, Hopen.
  split; [reflexivity|]. split; [reflexivity|]. cbn [fs].
  split; [apply lookup_insert_eq|]. split; [apply lookup_insert_eq|].
  apply insert_insert_eq.
Qed.

Lemma upload_media_overwrites_witness :
  UploadFile.filename (UploadFile.mk "cat.png" [Byte.x01; Byte.x02]) =
    UploadFile.filename (UploadFile.mk "cat.png" [Byte.x03]) /\
  open_error Sample.env (os_path_join (OUTPUT_FOLDER Sample.env) "cat.png") = None /\
  exists w1 w2,
    upload_media Sample.env (UploadFile.mk "cat.png" [Byte.x01; Byte.x02]) Sample.world =
      (Return (MediaUploadResponse.mk "cat.png" "File uploaded successfully"), w1) /\
    upload_media Sample.env (UploadFile.mk "cat.png" [Byte.x03]) w1 =
      (Return (MediaUploadResponse.mk "cat.png" "File uploaded successfully"), w2) /\
    fs w1 !! os_path_join (OUTPUT_FOLDER Sample.env) "cat.png" = Some [Byte.x01; Byte.x02] /\
    fs w2 !! os_path_join (OUTPUT_FOLDER Sample.env) "cat.png" = Some [Byte.x03] /\
    fs w2 = <[os_path_join (OUTPUT_FOLDER Sample.env) "cat.png" := [Byte.x03]]>
              (fs Sample.world).
Proof.
  split; [reflexivity|]. split; [reflexivity|].
  apply (upload_media_overwrites Sample.env
           (UploadFile.mk "cat.png" [Byte.x01; Byte.x02]) (UploadFile.mk "cat.png" [Byte.x03])
           Sample.world); reflexivity.
Defined.

(** The answer of an upload never depends on what is stored. *)
Lemma upload_media_response_ignores_storage env file w w' :
  fst (upload_media env file w) = fst (upload_media env file w').
Proof. rewrite !upload_media_spec. destruct (open_error env _); reflexivity. Qed.

Example upload_refused :
  upload_media Sample.env_readonly (UploadFile.mk "cat.png" [Byte.x01]) Sample.world =
  (Raise (mkHTTPException 500 "[Errno 13] Permission denied"), Sample.world).
Proof. reflexivity. Qed.

(** ** The model of a build call (C8) *)

Lemma note_at_built_decks env package w i j n :
  note_at (built_decks env package w) i j = Some n ->
  genanki.Note.model n = built_model env package w.
Proof.
  unfold note_at.
  destruct (built_decks env package w !! i) as [d|] eqn:Hd; [|discriminate].
  apply built_decks_lookup_inv in Hd as (deck & _ & ->). cbn [genanki_deck genanki.Deck.notes].
  change (map ?f ?l) with (f <$> l). rewrite list_lookup_fmap.
  destruct (Deck.notes deck !! j); simpl; [|discriminate].
  by intros [= <-].
Qed.

(** C8. A build call makes one model, whose id is the call's first draw and
    so depends on the generator alone, not on the package; the later draws
    of the call, one per deck, go to the decks.  Every input note is in the
    decks handed to the serializer, at its place, and carries that model;
    those decks hold no other note, and every note written to the archive
    carries that model; the archive of a successful call is the archive of
    exactly those decks. *)
Theorem one_model_per_build env package w :
  exists filename model decks w',
    assemble env package w = (Return (filename, model, decks), w') /\
    genanki.Model.model_id model = draw env (rand_calls w) /\
    rand_calls w' = (rand_calls w + 1 + length (Package.decks package))%nat /\
    length decks = length (Package.decks package) /\
    (forall i deck, Package.decks package !! i = Some deck ->
       exists d, decks !! i = Some d /\
         length (genanki.Deck.notes d) = length (Deck.notes deck)) /\
    (forall i j deck note,
       Package.decks package !! i = Some deck -> Deck.notes deck !! j = Some note ->
       exists n, note_at decks i j = Some n /\
         genanki.Note.fields n = Note.fields note /\
         genanki.Note.model n = model) /\
    (forall i j n, note_at decks i j = Some n ->
       genanki.Note.model n = model /\
       genanki.Model.model_id (genanki.Note.model n) = draw env (rand_calls w)) /\
    (forall id n, (id, n) ∈ Archive.notes (archive_of env decks) ->
       genanki.Note.model n = model) /\
    (forall resp w'', generate_flashcards env package w = (Return resp, w'') ->
       fs w'' = <[os_path_join (OUTPUT_FOLDER env) filename := apkg_bytes env decks]> (fs w)).
Proof.
  exists (built_filename env w), (built_model env package w), (built_decks env package w).
  eexists. split; [apply assemble_spec|].
  split; [reflexivity|]. split; [cbn; lia|].
  split; [apply built_decks_length|].
  split.
  { intros i deck Hd. eexists. split; [apply built_decks_lookup, Hd|].
    cbn. apply length_map. }
  split.
  { intros i j deck note Hd Hn. eexists.
    split; [apply (built_note_lookup env package w i j deck note Hd Hn)|]. by split. }
  split.
  { intros i j n Hn. apply note_at_built_decks in Hn. by rewrite Hn. }
  split.
  - intros id n Hin. cbn [archive_of Archive.notes] in Hin. unfold archive_notes in Hin.
    apply list_elem_of_In, in_concat in Hin as (rows & Hrows & Hin).
    apply in_map_iff in Hrows as (d & <- & Hd).
    apply in_map_iff in Hin as (n' & [= <- <-] & Hn).
    apply list_elem_of_In, list_elem_of_lookup in Hd as (i & Hd).
    apply list_elem_of_In, list_elem_of_lookup in Hn as (j & Hn).
    apply (note_at_built_decks env package w i j). unfold note_at. by rewrite Hd.
  - intros resp w'' Hgen.
    pose proof (generate_flashcards_return _ _ _ _ _ Hgen) as Hacc.
    rewrite (generate_flashcards_accepted _ _ _ Hacc) in Hgen.
    by injection Hgen as _ <-.
Qed.

Lemma one_model_per_build_witness :
  exists filename model decks w',
    assemble Sample.env Sample.package Sample.world = (Return (filename, model, decks), w') /\
    genanki.Model.model_id model = draw Sample.env (rand_calls Sample.world) /\
    rand_calls w' =
      (rand_calls Sample.world + 1 + length (Package.decks Sample.package))%nat /\
    length decks = length (Package.decks Sample.package) /\
    (forall i deck, Package.decks Sample.package !! i = Some deck ->
       exists d, decks !! i = Some d /\
         length (genanki.Deck.notes d) = length (Deck.notes deck)) /\
    (forall i j deck note,
       Package.decks Sample.package !! i = Some deck -> Deck.notes deck !! j = Some note ->
       exists n, note_at decks i j = Some n /\
         genanki.Note.fields n = Note.fields note /\
         genanki.Note.model n = model) /\
    (forall i j n, note_at decks i j = Some n ->
       genanki.Note.model n = model /\
       genanki.Model.model_id (genanki.Note.model n) =
         draw Sample.env (rand_calls Sample.world)) /\
    (forall id n, (id, n) ∈ Archive.notes (archive_of Sample.env decks) ->
       genanki.Note.model n = model) /\
    (forall resp w'',
       generate_flashcards Sample.env Sample.package Sample.world = (Return resp, w'') ->
       fs w'' = <[os_path_join (OUTPUT_FOLDER Sample.env) filename :=
                    apkg_bytes Sample.env decks]> (fs Sample.world)).
Proof. apply (one_model_per_build Sample.env Sample.package Sample.world). Defined.

Example sample_model_ids :
  map (fun n => genanki.Model.model_id (genanki.Note.model n))
    (concat (map genanki.Deck.notes (built_decks Sample.env Sample.package Sample.world))) =
  [1073754169; 1073754169; 1073754169; 1073754169; 1073754169].
Proof. reflexivity. Qed.

(** ** The response of a successful build (C9) *)




(** ** Omitted members of the request (C10) *)

(** C10. In the objects built from a request body, a model without [css]
    has the empty string as its CSS, a deck without [description] the empty
    string as its description, and a note without [tags] the empty list as
    its tags; a note without [guid] is built without a GUID, so that its
    identifier is the one synthesized from its field values. *)
Theorem omitted_members_take_defaults env body w :
  exists filename model decks w',
    assemble env (Package.parse body) w = (Return (filename, model, decks), w') /\
    (ModelDefinition.j_css (Package.j_model body) = Omitted ->
     genanki.Model.css model = Some EmptyString) /\
    (forall i d, Package.j_decks body !! i = Some d ->
       exists gd, decks !! i = Some gd /\
         (Deck.j_description d = Omitted ->
          genanki.Deck.description gd = Some EmptyString) /\
         (forall j n, Deck.j_notes d !! j = Some n ->
            exists gn, genanki.Deck.notes gd !! j = Some gn /\
              genanki.Note.model gn = model /\
              (Note.j_tags n = Omitted -> genanki.Note.tags gn = Some []) /\
              (Note.j_guid n = Omitted ->
               genanki.Note.guid gn = None /\
               note_guid env gn = guid_for env (Note.j_fields n)))).
Proof.
  exists (built_filename env w), (built_model env (Package.parse body) w),
    (built_decks env (Package.parse body) w).
  eexists. split; [apply assemble_spec|]. split.
  - intros Hcss. cbn. by rewrite Hcss.
  - intros i d Hd. eexists. split.
    + apply built_decks_lookup. cbn [Package.parse Package.decks].
      change (map ?f ?l) with (f <$> l). by rewrite list_lookup_fmap, Hd.
    + cbn [genanki_deck genanki.Deck.description genanki.Deck.notes Deck.parse
           Deck.description Deck.notes]. split.
      * intros Hdesc. by rewrite Hdesc.
      * intros j n Hn. eexists. split.
        { change (map ?f ?l) with (f <$> l). rewrite !list_lookup_fmap, Hn. reflexivity. }
        split; [reflexivity|]. split.
        { intros Htags. cbn. by rewrite Htags. }
        intros Hguid. unfold note_guid, guid_source. cbn. by rewrite Hguid.
Qed.

Lemma omitted_members_take_defaults_witness :
  exists filename model decks w',
    assemble Sample.env (Package.parse Sample.bare_body) Sample.world =
      (Return (filename, model, decks), w') /\
    (ModelDefinition.j_css (Package.j_model Sample.bare_body) = Omitted ->
     genanki.Model.css model = Some EmptyString) /\
    (forall i d, Package.j_decks Sample.bare_body !! i = Some d ->
       exists gd, decks !! i = Some gd /\
         (Deck.j_description d = Omitted ->
          genanki.Deck.description gd = Some EmptyString) /\
         (forall j n, Deck.j_notes d !! j = Some n ->
            exists gn, genanki.Deck.notes gd !! j = Some gn /\
              genanki.Note.model gn = model /\
              (Note.j_tags n = Omitted -> genanki.Note.tags gn = Some []) /\
              (Note.j_guid n = Omitted ->
               genanki.Note.guid gn = None /\
               note_guid Sample.env gn = guid_for Sample.env (Note.j_fields n)))).
Proof. apply (omitted_members_take_defaults Sample.env Sample.bare_body Sample.world). Defined.

Example bare_body_build :
  fst (assemble Sample.env (Package.parse Sample.bare_body) Sample.world) =
  Return
    ("flashcards_9f1c2d3e4a5b46c78d9e0f1a2b3c4d5e.apkg"%string,
     genanki.Model.mk 1073754169 "Bare Model"
       [[("name", "Front")]; [("name", "Back")]]%string [] (Some EmptyString),
     [genanki.Deck.mk 1073762088 "Bare" (Some EmptyString)
        [genanki.Note.mk
           (genanki.Model.mk 1073754169 "Bare Model"
              [[("name", "Front")]; [("name", "Back")]]%string [] (Some EmptyString))
           ["Q"; "A"]%string (Some []) None]]).
Proof. reflexivity. Qed.

(** An explicit [null] is not an omission: it reaches the built objects. *)
Example null_css_is_passed_on :
  ModelDefinition.css
    (ModelDefinition.parse (ModelDefinition.mk_json "M" ["Front"]%string [] Null)) = None.
Proof. reflexivity. Qed.

(** ** Notes whose number of values differs from the model's (C5) *)

(** C5, as the code has it.  A note with fewer or more values than the model
    has fields is neither rejected nor changed by the builder: it reaches
    the serializer at its position with exactly the values supplied.  The
    build then completes if the serializer and the storage accept the
    decks, and otherwise ends in the 500 response that carries the
    exception's text. *)
Theorem mismatched_note_is_passed_through env package w i j deck note :
  Package.decks package !! i = Some deck ->
  Deck.notes deck !! j = Some note ->
  length (Note.fields note) <> length (ModelDefinition.fields (Package.model package)) ->
  exists filename model decks w' gn,
    assemble env package w = (Return (filename, model, decks), w') /\
    note_at decks i j = Some gn /\
    genanki.Note.fields gn = Note.fields note /\
    length (genanki.Model.fields (genanki.Note.model gn)) =
      length (ModelDefinition.fields (Package.model package)) /\
    (write_error env decks (os_path_join (OUTPUT_FOLDER env) filename) = None ->
     exists resp, fst (generate_flashcards env package w) = Return resp) /\
    (forall e, write_error env decks (os_path_join (OUTPUT_FOLDER env) filename) = Some e ->
       fst (generate_flashcards env package w) =
       Raise (mkHTTPException 500 ("An error occurred during flashcard generation: " +:+ e))).
Proof.
  intros Hd Hn _.
  exists (built_filename env w), (built_model env package w), (built_decks env package w).
  eexists. exists (genanki_note (built_model env package w) note).
  split; [apply assemble_spec|].
  split; [by apply (built_note_lookup env package w i j deck)|].
  split; [reflexivity|].
  split; [cbn; apply length_map|].
  rewrite generate_flashcards_spec, generate_flashcards_body_spec. cbv zeta.
  fold (built_path env w). split.
  - intros ->. eauto.
  - intros e ->. reflexivity.
Qed.

Lemma mismatched_note_is_passed_through_witness :
  exists filename model decks w' gn,
    assemble Sample.env Sample.package_mismatch Sample.world =
      (Return (filename, model, decks), w') /\
    note_at decks 0 1 = Some gn /\
    genanki.Note.fields gn = Note.fields Sample.long_note /\
    length (genanki.Model.fields (genanki.Note.model gn)) =
      length (ModelDefinition.fields (Package.model Sample.package_mismatch)) /\
    (write_error Sample.env decks (os_path_join (OUTPUT_FOLDER Sample.env) filename) = None ->
     exists resp,
       fst (generate_flashcards Sample.env Sample.package_mismatch Sample.world) = Return resp) /\
    (forall e,
       write_error Sample.env decks (os_path_join (OUTPUT_FOLDER Sample.env) filename) = Some e ->
       fst (generate_flashcards Sample.env Sample.package_mismatch Sample.world) =
       Raise (mkHTTPException 500 ("An error occurred during flashcard generation: " +:+ e))).
Proof.
  apply (mismatched_note_is_passed_through Sample.env Sample.package_mismatch Sample.world
           0%nat 1%nat (Deck.mk "Odd" (Some EmptyString) [Sample.short_note; Sample.long_note])
           Sample.long_note);
    [reflexivity | reflexivity | simpl; lia].
Defined.

(** C5 as stated fails: a serializer that checks the number of values of a
    note against its model, as genanki does when it writes a note, raises on
    the package below, whose notes have one and three values for a model of
    two fields, and the build ends in the 500 response. *)
Lemma mismatched_note_build_raises :
  Package.decks Sample.package_mismatch !! 0%nat =
    Some (Deck.mk "Odd" (Some EmptyString) [Sample.short_note; Sample.long_note]) /\
  length (Note.fields Sample.short_note) <>
    length (ModelDefinition.fields (Package.model Sample.package_mismatch)) /\
  generate_flashcards Sample.env_strict Sample.package_mismatch Sample.world =
    (Raise (mkHTTPException 500
       "An error occurred during flashcard generation: Number of fields in Model does not match number of fields in Note"),
     mkWorld ∅ 2 1) /\
  forall resp,
    fst (generate_flashcards Sample.env_strict Sample.package_mismatch Sample.world) <>
    Return resp.
Proof.
  split; [reflexivity|]. split; [simpl; lia|]. split; [vm_compute; reflexivity|].
  intros resp. discriminate.
Qed.

Example mismatched_note_build_lenient :
  fst (generate_flashcards Sample.env Sample.package_mismatch Sample.world) =
  Return (FlashcardGenerationResponse.mk "Flashcards generated successfully"
    "https://anki-gen5.onrender.com/download/flashcards_9f1c2d3e4a5b46c78d9e0f1a2b3c4d5e.apkg").
Proof. reflexivity. Qed.

(** * Further properties of the handlers *)

(** ** Paths *)

Lemma append_inj_r (a b1 b2 : string) : a +:+ b1 = a +:+ b2 -> b1 = b2.
Proof. induction a as [|c a IH]; simpl; [done|]. intros [= H]. auto. Qed.

Lemma length_append (s1 s2 : string) :
  String.length (s1 +:+ s2) = (String.length s1 + String.length s2)%nat.
Proof. induction s1 as [|c s1 IH]; simpl; [done|]. by rewrite IH. Qed.

Lemma append_inj_l (h1 h2 s : string) : h1 +:+ s = h2 +:+ s -> h1 = h2.
Proof.
  revert h2. induction h1 as [|c h1 IH]; intros [|c2 h2]; simpl; intros H.
  - done.
  - apply (f_equal String.length) in H. rewrite !length_append in H. simpl in H.
    rewrite ?length_append in H. lia.
  - apply (f_equal String.length) in H. rewrite !length_append in H. simpl in H.
    rewrite ?length_append in H. lia.
  - injection H as -> H. f_equal. by apply IH.
Qed.

Lemma os_path_join_absolute a b : startswith_sep b = true -> os_path_join a b = b.
Proof. intros Hb. unfold os_path_join. by rewrite Hb. Qed.

Lemma os_path_join_inj a b1 b2 :
  startswith_sep b1 = false -> startswith_sep b2 = false ->
  os_path_join a b1 = os_path_join a b2 -> b1 = b2.
Proof.
  intros H1 H2. unfold os_path_join. rewrite H1, H2.
  destruct (String.eqb a EmptyString || endswith_sep a)%bool; intros H.
  - by apply append_inj_r in H.
  - apply append_inj_r in H. by apply (append_inj_r "/") in H.
Qed.

(** A name that starts with the separator can resolve to the path of a
    plain name. *)
Example os_path_join_not_injective :
  os_path_join "/tmp" "/tmp/a.png" = os_path_join "/tmp" "a.png".
Proof. reflexivity. Qed.

Lemma built_filename_relative env w : startswith_sep (built_filename env w) = false.
Proof. reflexivity. Qed.

Lemma built_filename_inj env w w' :
  built_filename env w = built_filename env w' ->
  uuid4_hex env (uuid_calls w) = uuid4_hex env (uuid_calls w').
Proof.
  unfold built_filename. intros H. apply append_inj_r in H. by apply append_inj_l in H.
Qed.

(** ** Uploads and downloads together *)

Lemma plain_name_relative name : plain_name name = true -> startswith_sep name = false.
Proof.
  unfold plain_name. destruct name as [|c rest]; [done|]. simpl.
  destruct (Ascii.eqb c "/"); [done|]. done.
Qed.

(** X1. A file that has been uploaded under a name that can be encoded in
    latin-1 can be downloaded under that name: the download succeeds and
    its body is the uploaded bytes.  The download changes nothing. *)
Theorem upload_then_download env file w :
  open_error env (os_path_join (OUTPUT_FOLDER env) (UploadFile.filename file)) = None ->
  latin1_encodable (UploadFile.filename file) = true ->
  exists resp w' r,
    upload_media env file w = (Return resp, w') /\
    download_file env (UploadFile.filename file) w' = (Return r, w') /\
    response_body r w' = Some (UploadFile.content file) /\
    FileResponse.filename r = UploadFile.filename file.
Proof.
  intros Hopen Hname. rewrite upload_media_spec, Hopen. do 3 eexists.
  split; [reflexivity|].
  rewrite download_file_present;
    [|apply os_path_exists_spec; left; cbn [fs]; rewrite lookup_insert_eq; eauto|done].
  split; [reflexivity|]. unfold response_body. cbn.
  split; [apply lookup_insert_eq|reflexivity].
Qed.

Lemma upload_then_download_witness :
  open_error Sample.env
    (os_path_join (OUTPUT_FOLDER Sample.env)
       (UploadFile.filename (UploadFile.mk "cat.png" [Byte.x89; Byte.x50]))) = None /\
  latin1_encodable (UploadFile.filename (UploadFile.mk "cat.png" [Byte.x89; Byte.x50])) =
    true /\
  exists resp w' r,
    upload_media Sample.env (UploadFile.mk "cat.png" [Byte.x89; Byte.x50]) Sample.world =
      (Return resp, w') /\
    download_file Sample.env "cat.png" w' = (Return r, w') /\
    response_body r w' = Some [Byte.x89; Byte.x50] /\
    FileResponse.filename r = "cat.png"%string.
Proof.
  split; [reflexivity|]. split; [reflexivity|].
  apply (upload_then_download Sample.env (UploadFile.mk "cat.png" [Byte.x89; Byte.x50])
           Sample.world); reflexivity.
Defined.

(** A name above latin-1 uploads, and then does not download. *)
Example upload_then_download_wide_name :
  exists resp,
    upload_media Sample.env (UploadFile.mk SampleRuns.wide_name [Byte.x01]) Sample.world =
      (Return resp, SampleRuns.with_wide_name) /\
    download_file Sample.env SampleRuns.wide_name SampleRuns.with_wide_name =
      (Raise (Uncaught "'latin-1' codec can't encode characters: ordinal not in range(256)"),
       SampleRuns.with_wide_name).
Proof. eexists. split; vm_compute; reflexivity. Qed.

(** X3. An upload under a plain name, whether it succeeds or fails, leaves
    the entry of every other plain name of the storage folder as it was, and
    takes nothing from the sources of randomness. *)
Theorem upload_media_keeps_other_names env file w other :
  plain_name (UploadFile.filename file) = true ->
  plain_name other = true ->
  other <> UploadFile.filename file ->
  fs (snd (upload_media env file w)) !! under_storage_root env other =
    fs w !! under_storage_root env other /\
  rand_calls (snd (upload_media env file w)) = rand_calls w /\
  uuid_calls (snd (upload_media env file w)) = uuid_calls w.
Proof.
  intros Hfile Hother Hne. apply plain_name_relative in Hfile, Hother.
  rewrite <- (os_path_join_under_root env other Hother).
  rewrite upload_media_spec.
  destruct (open_error env _); cbn; [done|].
  rewrite lookup_insert_ne; [done|].
  intros H. apply os_path_join_inj in H; [|done..]. by apply Hne.
Qed.

Lemma upload_media_keeps_other_names_witness :
  plain_name (UploadFile.filename (UploadFile.mk "dog.png" [Byte.x89])) = true /\
  plain_name "cat.png" = true /\
  "cat.png"%string <> UploadFile.filename (UploadFile.mk "dog.png" [Byte.x89]) /\
  fs (snd (upload_media Sample.env (UploadFile.mk "dog.png" [Byte.x89])
             SampleRuns.with_media)) !! under_storage_root Sample.env "cat.png" =
    fs SampleRuns.with_media !! under_storage_root Sample.env "cat.png" /\
  rand_calls (snd (upload_media Sample.env (UploadFile.mk "dog.png" [Byte.x89])
                     SampleRuns.with_media)) = rand_calls SampleRuns.with_media /\
  uuid_calls (snd (upload_media Sample.env (UploadFile.mk "dog.png" [Byte.x89])
                     SampleRuns.with_media)) = uuid_calls SampleRuns.with_media.
Proof.
  split; [reflexivity|]. split; [reflexivity|]. split; [discriminate|].
  apply (upload_media_keeps_other_names Sample.env (UploadFile.mk "dog.png" [Byte.x89])
           SampleRuns.with_media "cat.png"); [reflexivity | reflexivity | discriminate].
Defined.

(** X4. Two uploads under different plain names that can be encoded in
    latin-1 do not disturb each other: after both, each name downloads the
    bytes uploaded under it. *)
Theorem uploads_under_distinct_names_coexist env f1 f2 w :
  UploadFile.filename f1 <> UploadFile.filename f2 ->
  plain_name (UploadFile.filename f1) = true ->
  plain_name (UploadFile.filename f2) = true ->
  latin1_encodable (UploadFile.filename f1) = true ->
  latin1_encodable (UploadFile.filename f2) = true ->
  open_error env (os_path_join (OUTPUT_FOLDER env) (UploadFile.filename f1)) = None ->
  open_error env (os_path_join (OUTPUT_FOLDER env) (UploadFile.filename f2)) = None ->
  exists resp1 w1 resp2 w2 r1 r2,
    upload_media env f1 w = (Return resp1, w1) /\
    upload_media env f2 w1 = (Return resp2, w2) /\
    download_file env (UploadFile.filename f1) w2 = (Return r1, w2) /\
    response_body r1 w2 = Some (UploadFile.content f1) /\
    download_file env (UploadFile.filename f2) w2 = (Return r2, w2) /\
    response_body r2 w2 = Some (UploadFile.content f2).
Proof.
  intros Hne Hplain1 Hplain2 Hlat1 Hlat2 Hopen1 Hopen2.
  apply plain_name_relative in Hplain1, Hplain2.
  assert (os_path_join (OUTPUT_FOLDER env) (UploadFile.filename f2) <>
          os_path_join (OUTPUT_FOLDER env) (UploadFile.filename f1)) as Hpaths.
  { intros H. apply os_path_join_inj in H; [|done..]. by apply Hne. }
  rewrite !upload_media_spec, Hopen1.
  do 2 eexists. rewrite upload_media_spec, Hopen2. cbn [fs rand_calls uuid_calls].
  do 2 eexists.
  edestruct (download_file_found env (UploadFile.filename f1)) as (r1 & Hr1 & Hb1);
    [|exact Hlat1|].
  2: edestruct (download_file_found env (UploadFile.filename f2)) as (r2 & Hr2 & Hb2);
    [|exact Hlat2|].
  3: { exists r1, r2. split; [reflexivity|]. split; [reflexivity|].
       split; [exact Hr1|]. split; [exact Hb1|]. split; [exact Hr2|exact Hb2]. }
  - cbn [fs]. rewrite lookup_insert_ne by done. apply lookup_insert_eq.
  - cbn [fs]. apply lookup_insert_eq.
Qed.

Lemma uploads_under_distinct_names_coexist_witness :
  exists resp1 w1 resp2 w2 r1 r2,
    upload_media Sample.env (UploadFile.mk "cat.png" [Byte.x01]) Sample.world =
      (Return resp1, w1) /\
    upload_media Sample.env (UploadFile.mk "dog.png" [Byte.x02; Byte.x03]) w1 =
      (Return resp2, w2) /\
    download_file Sample.env "cat.png" w2 = (Return r1, w2) /\
    response_body r1 w2 = Some [Byte.x01] /\
    download_file Sample.env "dog.png" w2 = (Return r2, w2) /\
    response_body r2 w2 = Some [Byte.x02; Byte.x03].
Proof.
  apply (uploads_under_distinct_names_coexist Sample.env
           (UploadFile.mk "cat.png" [Byte.x01]) (UploadFile.mk "dog.png" [Byte.x02; Byte.x03])
           Sample.world);
    [discriminate | reflexivity..].
Defined.

(** ** Filenames that start with the separator *)

(** X5. [download_file] applies no check to the filename: for a name that
    starts with the separator the storage folder plays no part, the path
    looked up is the name itself.  The call answers 404 exactly when
    nothing, neither a file nor a directory, is at that path, and when a
    file is stored there and the name can be encoded in latin-1 it serves
    that file. *)
Theorem download_file_absolute_name env filename w :
  startswith_sep filename = true ->
  (fst (download_file env filename w) = Raise (Http (mkHTTPException 404 "File not found")) <->
   fs w !! filename = None /\ is_dir env filename = false) /\
  (forall data,
     fs w !! filename = Some data ->
     latin1_encodable filename = true ->
     exists r,
       download_file env filename w = (Return r, w) /\
       FileResponse.path r = filename /\
       response_body r w = Some data).
Proof.
  intros Habs. pose proof (os_path_join_absolute (OUTPUT_FOLDER env) _ Habs) as Hjoin.
  split; [split|].
  - intros H. apply download_file_http_error in H as [_ H].
    rewrite Hjoin in H. by apply os_path_exists_false in H.
  - intros H. apply os_path_exists_false in H. rewrite <- Hjoin in H.
    by rewrite download_file_missing.
  - intros data Hdata Hname.
    rewrite download_file_present; [|apply os_path_exists_spec; rewrite Hjoin; eauto|done].
    rewrite Hjoin. eexists. split; [reflexivity|]. split; [reflexivity|]. exact Hdata.
Qed.

Lemma download_file_absolute_name_witness :
  startswith_sep "/etc/hostname" = true /\
  (fst (download_file Sample.env "/etc/hostname"
          (mkWorld {["/etc/hostname"%string := [Byte.x68; Byte.x0a]]} 0 0)) =
     Raise (Http (mkHTTPException 404 "File not found")) <->
   fs (mkWorld {["/etc/hostname"%string := [Byte.x68; Byte.x0a]]} 0 0)
     !! "/etc/hostname"%string = None /\
   is_dir Sample.env "/etc/hostname" = false) /\
  (forall data,
     fs (mkWorld {["/etc/hostname"%string := [Byte.x68; Byte.x0a]]} 0 0)
       !! "/etc/hostname"%string = Some data ->
     latin1_encodable "/etc/hostname" = true ->
     exists r,
       download_file Sample.env "/etc/hostname"
         (mkWorld {["/etc/hostname"%string := [Byte.x68; Byte.x0a]]} 0 0) =
       (Return r, mkWorld {["/etc/hostname"%string := [Byte.x68; Byte.x0a]]} 0 0) /\
       FileResponse.path r = "/etc/hostname"%string /\
       response_body r (mkWorld {["/etc/hostname"%string := [Byte.x68; Byte.x0a]]} 0 0) =
         Some data).
Proof.
  split; [reflexivity|].
  apply (download_file_absolute_name Sample.env "/etc/hostname"
           (mkWorld {["/etc/hostname"%string := [Byte.x68; Byte.x0a]]} 0 0)).
  reflexivity.
Defined.

Example download_outside_storage_folder :
  exists r,
    fst (download_file Sample.env "/etc/hostname"
           (mkWorld {["/etc/hostname"%string := [Byte.x68; Byte.x0a]]} 0 0)) = Return r /\
    response_body r (mkWorld {["/etc/hostname"%string := [Byte.x68; Byte.x0a]]} 0 0) =
      Some [Byte.x68; Byte.x0a].
Proof. eexists. split; [vm_compute; reflexivity|]. vm_compute. reflexivity. Qed.

(** The root directory exists, so its name gets no 404. *)
Example download_of_the_root_directory :
  fst (download_file Sample.env "/" Sample.world) <>
  Raise (Http (mkHTTPException 404 "File not found")).
Proof. discriminate. Qed.

(** X6. [upload_media] applies no check to the filename either: a name that
    starts with the separator is written at the path it spells, whatever the
    storage folder is, replacing what was stored there. *)
Theorem upload_media_absolute_name env file w :
  startswith_sep (UploadFile.filename file) = true ->
  open_error env (UploadFile.filename file) = None ->
  exists resp w',
    upload_media env file w = (Return resp, w') /\
    fs w' = <[UploadFile.filename file := UploadFile.content file]> (fs w).
Proof.
  intros Habs Hopen.
  rewrite upload_media_spec, (os_path_join_absolute _ _ Habs), Hopen.
  do 2 eexists. split; reflexivity.
Qed.

Lemma upload_media_absolute_name_witness :
  startswith_sep (UploadFile.filename (UploadFile.mk "/srv/app/main.py" [Byte.x23])) = true /\
  open_error Sample.env (UploadFile.filename (UploadFile.mk "/srv/app/main.py" [Byte.x23])) =
    None /\
  exists resp w',
    upload_media Sample.env (UploadFile.mk "/srv/app/main.py" [Byte.x23]) Sample.world =
      (Return resp, w') /\
    fs w' = <["/srv/app/main.py"%string := [Byte.x23]]> (fs Sample.world).
Proof.
  split; [reflexivity|]. split; [reflexivity|].
  apply (upload_media_absolute_name Sample.env (UploadFile.mk "/srv/app/main.py" [Byte.x23])
           Sample.world); reflexivity.
Defined.

(** ** Builds, uploads and downloads together *)

Lemma download_after_build_witness :
  generate_flashcards Sample.env Sample.package Sample.world =
    (Return (FlashcardGenerationResponse.mk "Flashcards generated successfully"
       "https://anki-gen5.onrender.com/download/flashcards_9f1c2d3e4a5b46c78d9e0f1a2b3c4d5e.apkg"),
     snd (generate_flashcards Sample.env Sample.package Sample.world)) /\
  exists r,
    download_file Sample.env (built_filename Sample.env Sample.world)
      (snd (generate_flashcards Sample.env Sample.package Sample.world)) =
      (Return r, snd (generate_flashcards Sample.env Sample.package Sample.world)) /\
    response_body r (snd (generate_flashcards Sample.env Sample.package Sample.world)) =
      Some (apkg_bytes Sample.env (built_decks Sample.env Sample.package Sample.world)).
Proof.
  split; [vm_compute; reflexivity|].
  apply (download_after_build Sample.env Sample.package Sample.world
           (FlashcardGenerationResponse.mk "Flashcards generated successfully"
              "https://anki-gen5.onrender.com/download/flashcards_9f1c2d3e4a5b46c78d9e0f1a2b3c4d5e.apkg")).
  vm_compute. reflexivity.
Defined.




(** X9. Two build calls in a row whose UUIDs differ leave two archives in
    the storage: the second call does not touch the first call's file, and
    each generated filename downloads the archive of its own call. *)
Theorem sequential_builds_keep_both_archives env p1 p2 w resp1 w1 resp2 w2 :
  generate_flashcards env p1 w = (Return resp1, w1) ->
  generate_flashcards env p2 w1 = (Return resp2, w2) ->
  uuid4_hex env (uuid_calls w) <> uuid4_hex env (S (uuid_calls w)) ->
  exists name1 model1 decks1 name2 model2 decks2 r1 r2,
    fst (assemble env p1 w) = Return (name1, model1, decks1) /\
    fst (assemble env p2 w1) = Return (name2, model2, decks2) /\
    name1 <> name2 /\
    FlashcardGenerationResponse.download_url resp1 = base_url +:+ "/download/" +:+ name1 /\
    FlashcardGenerationResponse.download_url resp2 = base_url +:+ "/download/" +:+ name2 /\
    download_file env name1 w2 = (Return r1, w2) /\
    response_body r1 w2 = Some (apkg_bytes env decks1) /\
    download_file env name2 w2 = (Return r2, w2) /\
    response_body r2 w2 = Some (apkg_bytes env decks2).
Proof.
  intros Hgen1 Hgen2 Huuid.
  pose proof (generate_flashcards_return _ _ _ _ _ Hgen1) as Hacc1.
  rewrite (generate_flashcards_accepted _ _ _ Hacc1) in Hgen1.
  injection Hgen1 as <- Hw1.
  pose proof (generate_flashcards_return _ _ _ _ _ Hgen2) as Hacc2.
  rewrite (generate_flashcards_accepted _ _ _ Hacc2) in Hgen2.
  injection Hgen2 as <- Hw2.
  assert (uuid_calls w1 = S (uuid_calls w)) as Hu by (by rewrite <- Hw1).
  assert (built_filename env w <> built_filename env w1) as Hnames.
  { intros H. apply built_filename_inj in H. rewrite Hu in H. by apply Huuid. }
  assert (built_path env w1 <> built_path env w) as Hpaths.
  { unfold built_path. intros H.
    apply os_path_join_inj in H; [|apply built_filename_relative..]. by apply Hnames. }
  assert (fs w2 !! built_path env w = Some (apkg_bytes env (built_decks env p1 w))) as Hl1.
  { rewrite <- Hw2. cbn [fs]. rewrite lookup_insert_ne by done.
    rewrite <- Hw1. cbn [fs]. apply lookup_insert_eq. }
  assert (fs w2 !! built_path env w1 = Some (apkg_bytes env (built_decks env p2 w1))) as Hl2.
  { rewrite <- Hw2. cbn [fs]. apply lookup_insert_eq. }
  destruct (download_file_found env _ _ _ Hl1 (built_filename_latin1 env w))
    as (r1 & Hr1 & Hb1).
  destruct (download_file_found env _ _ _ Hl2 (built_filename_latin1 env w1))
    as (r2 & Hr2 & Hb2).
  exists (built_filename env w), (built_model env p1 w), (built_decks env p1 w),
    (built_filename env w1), (built_model env p2 w1), (built_decks env p2 w1), r1, r2.
  rewrite !assemble_spec. cbn [fst].
  repeat (split; [done|]). done.
Qed.

Lemma sequential_builds_keep_both_archives_witness :
  generate_flashcards Sample.env Sample.package Sample.world =
    (Return SampleRuns.first_response, SampleRuns.after_build) /\
  generate_flashcards Sample.env Sample.package_mismatch SampleRuns.after_build =
    (Return SampleRuns.second_response, SampleRuns.after_two_builds) /\
  uuid4_hex Sample.env (uuid_calls Sample.world) <>
    uuid4_hex Sample.env (S (uuid_calls Sample.world)) /\
  exists name1 model1 decks1 name2 model2 decks2 r1 r2,
    fst (assemble Sample.env Sample.package Sample.world) = Return (name1, model1, decks1) /\
    fst (assemble Sample.env Sample.package_mismatch SampleRuns.after_build) =
      Return (name2, model2, decks2) /\
    name1 <> name2 /\
    FlashcardGenerationResponse.download_url SampleRuns.first_response =
      base_url +:+ "/download/" +:+ name1 /\
    FlashcardGenerationResponse.download_url SampleRuns.second_response =
      base_url +:+ "/download/" +:+ name2 /\
    download_file Sample.env name1 SampleRuns.after_two_builds =
      (Return r1, SampleRuns.after_two_builds) /\
    response_body r1 SampleRuns.after_two_builds = Some (apkg_bytes Sample.env decks1) /\
    download_file Sample.env name2 SampleRuns.after_two_builds =
      (Return r2, SampleRuns.after_two_builds) /\
    response_body r2 SampleRuns.after_two_builds = Some (apkg_bytes Sample.env decks2).
Proof.
  split; [vm_compute; reflexivity|]. split; [vm_compute; reflexivity|].
  split; [discriminate|].
  apply (sequential_builds_keep_both_archives Sample.env Sample.package Sample.package_mismatch
           Sample.world SampleRuns.first_response SampleRuns.after_build
           SampleRuns.second_response SampleRuns.after_two_builds);
    [vm_compute; reflexivity | vm_compute; reflexivity | discriminate].
Defined.

(** X13. Uploads and generated archives share one namespace: an upload
    under the filename a build call returned replaces the archive, and a
    later download of that name serves the uploaded bytes. *)
Theorem upload_replaces_generated_archive env package w resp w1 data :
  generate_flashcards env package w = (Return resp, w1) ->
  exists name mresp w2 r,
    name = ("flashcards_" +:+ uuid4_hex env (uuid_calls w) +:+ ".apkg")%string /\
    FlashcardGenerationResponse.download_url resp = base_url +:+ "/download/" +:+ name /\
    upload_media env (UploadFile.mk name data) w1 = (Return mresp, w2) /\
    download_file env name w2 = (Return r, w2) /\
    response_body r w2 = Some data.
Proof.
  intros Hgen. pose proof (generate_flashcards_return _ _ _ _ _ Hgen) as Hacc.
  rewrite (generate_flashcards_accepted _ _ _ Hacc) in Hgen. injection Hgen as <- _.
  assert (open_error env (built_path env w) = None) as Hopen.
  { unfold accepted, write_error in Hacc. by destruct (genanki_error env _). }
  exists (built_filename env w).
  rewrite upload_media_spec. cbn [UploadFile.filename UploadFile.content].
  fold (built_path env w). rewrite Hopen.
  do 2 eexists.
  edestruct (download_file_found env (built_filename env w)) as (r & Hr & Hbody);
    [|apply built_filename_latin1
     |exists r; repeat (split; [reflexivity|]); split; [exact Hr|exact Hbody]].
  cbn [fs]. apply lookup_insert_eq.
Qed.

Lemma upload_replaces_generated_archive_witness :
  generate_flashcards Sample.env Sample.package Sample.world =
    (Return SampleRuns.first_response, SampleRuns.after_build) /\
  exists name mresp w2 r,
    name = ("flashcards_" +:+ uuid4_hex Sample.env (uuid_calls Sample.world) +:+ ".apkg")%string /\
    FlashcardGenerationResponse.download_url SampleRuns.first_response =
      base_url +:+ "/download/" +:+ name /\
    upload_media Sample.env (UploadFile.mk name [Byte.x00]) SampleRuns.after_build =
      (Return mresp, w2) /\
    download_file Sample.env name w2 = (Return r, w2) /\
    response_body r w2 = Some [Byte.x00].
Proof.
  split; [vm_compute; reflexivity|].
  apply (upload_replaces_generated_archive Sample.env Sample.package Sample.world
           SampleRuns.first_response SampleRuns.after_build [Byte.x00]).
  vm_compute. reflexivity.
Defined.

(** X14. What a build call answers does not depend on the files stored: in
    two worlds that agree on how far the sources of randomness have been
    used, the same package gets the same answer.  In particular no stored
    file, whatever its name, makes a build fail. *)
Theorem generate_flashcards_ignores_storage env package w w' :
  rand_calls w = rand_calls w' ->
  uuid_calls w = uuid_calls w' ->
  fst (generate_flashcards env package w) = fst (generate_flashcards env package w').
Proof.
  intros Hr Hu.
  rewrite !generate_flashcards_spec, !generate_flashcards_body_spec. cbv zeta.
  unfold built_path, built_filename, built_decks, built_model. rewrite Hr, Hu.
  destruct (write_error env _ _); reflexivity.
Qed.

Lemma generate_flashcards_ignores_storage_witness :
  rand_calls Sample.world = rand_calls SampleRuns.with_media /\
  uuid_calls Sample.world = uuid_calls SampleRuns.with_media /\
  fst (generate_flashcards Sample.env Sample.package Sample.world) =
  fst (generate_flashcards Sample.env Sample.package SampleRuns.with_media).
Proof.
  split; [reflexivity|]. split; [reflexivity|].
  apply (generate_flashcards_ignores_storage Sample.env Sample.package Sample.world
           SampleRuns.with_media); reflexivity.
Defined.

(** ** Edge cases of the request *)

(** X12. A package without decks is not rejected: when the serializer
    accepts the empty list of decks and the storage accepts the path, the
    call succeeds, writes the archive of no decks, and has drawn one random
    value only, the model's id. *)
Theorem package_without_decks_builds env model w :
  genanki_error env [] = None ->
  open_error env
    (os_path_join (OUTPUT_FOLDER env)
       ("flashcards_" +:+ uuid4_hex env (uuid_calls w) +:+ ".apkg")) = None ->
  exists resp w',
    generate_flashcards env (Package.mk [] model) w = (Return resp, w') /\
    fs w' = <[os_path_join (OUTPUT_FOLDER env)
                ("flashcards_" +:+ uuid4_hex env (uuid_calls w) +:+ ".apkg") :=
                apkg_bytes env []]> (fs w) /\
    rand_calls w' = S (rand_calls w).
Proof.
  intros Hlib Hopen. do 2 eexists.
  rewrite generate_flashcards_accepted.
  - split; [reflexivity|]. split; [reflexivity|]. cbn. lia.
  - unfold accepted, write_error. cbn. by rewrite Hlib.
Qed.

Lemma package_without_decks_builds_witness :
  genanki_error Sample.env [] = None /\
  open_error Sample.env
    (os_path_join (OUTPUT_FOLDER Sample.env)
       ("flashcards_" +:+ uuid4_hex Sample.env (uuid_calls Sample.world) +:+ ".apkg")) = None /\
  exists resp w',
    generate_flashcards Sample.env (Package.mk [] Sample.basic_model) Sample.world =
      (Return resp, w') /\
    fs w' = <[os_path_join (OUTPUT_FOLDER Sample.env)
                ("flashcards_" +:+ uuid4_hex Sample.env (uuid_calls Sample.world) +:+ ".apkg") :=
                apkg_bytes Sample.env []]> (fs Sample.world) /\
    rand_calls w' = S (rand_calls Sample.world).
Proof.
  split; [reflexivity|]. split; [reflexivity|].
  apply (package_without_decks_builds Sample.env Sample.basic_model Sample.world); reflexivity.
Defined.

(** X10. An optional member that is present keeps what was sent, and
    [null] is not replaced by the default: a [css], [description] or [tags]
    sent as [null] reaches the genanki model, deck or note as [None], and a
    value sent for [css], [description], [tags] or [guid] reaches it
    unchanged. *)
Theorem present_members_are_passed_on env body w :
  exists filename model decks w',
    assemble env (Package.parse body) w = (Return (filename, model, decks), w') /\
    (ModelDefinition.j_css (Package.j_model body) = Null -> genanki.Model.css model = None) /\
    (forall css, ModelDefinition.j_css (Package.j_model body) = Given css ->
       genanki.Model.css model = Some css) /\
    (forall i d, Package.j_decks body !! i = Some d ->
       exists gd, decks !! i = Some gd /\
         (Deck.j_description d = Null -> genanki.Deck.description gd = None) /\
         (forall text, Deck.j_description d = Given text ->
            genanki.Deck.description gd = Some text) /\
         (forall j n, Deck.j_notes d !! j = Some n ->
            exists gn, genanki.Deck.notes gd !! j = Some gn /\
              genanki.Note.fields gn = Note.j_fields n /\
              (Note.j_tags n = Null -> genanki.Note.tags gn = None) /\
              (forall tags, Note.j_tags n = Given tags -> genanki.Note.tags gn = Some tags) /\
              (Note.j_guid n = Null -> genanki.Note.guid gn = None) /\
              (forall g, Note.j_guid n = Given g -> genanki.Note.guid gn = Some g))).
Proof.
  exists (built_filename env w), (built_model env (Package.parse body) w),
    (built_decks env (Package.parse body) w).
  eexists. split; [apply assemble_spec|].
  split; [intros H; cbn; by rewrite H|].
  split; [intros css H; cbn; by rewrite H|].
  intros i d Hd. eexists. split.
  - apply built_decks_lookup. cbn [Package.parse Package.decks].
    change (map ?f ?l) with (f <$> l). by rewrite list_lookup_fmap, Hd.
  - cbn [genanki_deck genanki.Deck.description genanki.Deck.notes Deck.parse
         Deck.description Deck.notes].
    split; [intros H; by rewrite H|].
    split; [intros text H; by rewrite H|].
    intros j n Hn. eexists. split.
    { change (map ?f ?l) with (f <$> l). rewrite !list_lookup_fmap, Hn. reflexivity. }
    cbn. split; [reflexivity|].
    split; [intros H; by rewrite H|].
    split; [intros tags H; by rewrite H|].
    split; [intros H; by rewrite H|].
    intros g H; by rewrite H.
Qed.

Lemma present_members_are_passed_on_witness :
  exists filename model decks w',
    assemble Sample.env (Package.parse SampleRuns.null_body) Sample.world =
      (Return (filename, model, decks), w') /\
    (ModelDefinition.j_css (Package.j_model SampleRuns.null_body) = Null ->
     genanki.Model.css model = None) /\
    (forall css, ModelDefinition.j_css (Package.j_model SampleRuns.null_body) = Given css ->
       genanki.Model.css model = Some css) /\
    (forall i d, Package.j_decks SampleRuns.null_body !! i = Some d ->
       exists gd, decks !! i = Some gd /\
         (Deck.j_description d = Null -> genanki.Deck.description gd = None) /\
         (forall text, Deck.j_description d = Given text ->
            genanki.Deck.description gd = Some text) /\
         (forall j n, Deck.j_notes d !! j = Some n ->
            exists gn, genanki.Deck.notes gd !! j = Some gn /\
              genanki.Note.fields gn = Note.j_fields n /\
              (Note.j_tags n = Null -> genanki.Note.tags gn = None) /\
              (forall tags, Note.j_tags n = Given tags -> genanki.Note.tags gn = Some tags) /\
              (Note.j_guid n = Null -> genanki.Note.guid gn = None) /\
              (forall g, Note.j_guid n = Given g -> genanki.Note.guid gn = Some g))).
Proof.
  apply (present_members_are_passed_on Sample.env SampleRuns.null_body Sample.world).
Defined.

Example null_body_build :
  fst (assemble Sample.env (Package.parse SampleRuns.null_body) Sample.world) =
  Return
    ("flashcards_9f1c2d3e4a5b46c78d9e0f1a2b3c4d5e.apkg"%string,
     genanki.Model.mk 1073754169 "Null Model"
       [[("name", "Front")]; [("name", "Back")]]%string [] None,
     [genanki.Deck.mk 1073762088 "Nulls" None
        [genanki.Note.mk
           (genanki.Model.mk 1073754169 "Null Model"
              [[("name", "Front")]; [("name", "Back")]]%string [] None)
           ["Q"; "A"]%string None None]]).
Proof. reflexivity. Qed.

(** X11. The model handed to genanki copies the model definition: its name
    and CSS are the supplied ones, its field table has one [{'name': f}]
    entry per field name and its template table one
    [{'name', 'qfmt', 'afmt'}] entry per card template, both in the order
    supplied and with the texts unchanged; its id lies in [2^30, 2^31). *)
Theorem built_model_copies_definition env package w :
  exists filename model decks w',
    assemble env package w = (Return (filename, model, decks), w') /\
    2 ^ 30 <= genanki.Model.model_id model < 2 ^ 31 /\
    genanki.Model.name model = ModelDefinition.name (Package.model package) /\
    genanki.Model.css model = ModelDefinition.css (Package.model package) /\
    length (genanki.Model.fields model) =
      length (ModelDefinition.fields (Package.model package)) /\
    length (genanki.Model.templates model) =
      length (ModelDefinition.templates (Package.model package)) /\
    (forall k field, ModelDefinition.fields (Package.model package) !! k = Some field ->
       genanki.Model.fields model !! k = Some [("name"%string, field)]) /\
    (forall k t, ModelDefinition.templates (Package.model package) !! k = Some t ->
       genanki.Model.templates model !! k =
       Some [("name"%string, CardTemplate.name t); ("qfmt"%string, CardTemplate.qfmt t);
             ("afmt"%string, CardTemplate.afmt t)]).
Proof.
  exists (built_filename env w), (built_model env package w), (built_decks env package w).
  eexists. split; [apply assemble_spec|].
  split; [apply draw_range|].
  cbn [built_model build_model genanki.Model.name genanki.Model.css genanki.Model.fields
       genanki.Model.templates].
  split; [reflexivity|]. split; [reflexivity|].
  split; [apply length_map|]. split; [apply length_map|].
  split.
  - intros k field Hk. change (map ?f ?l) with (f <$> l). by rewrite list_lookup_fmap, Hk.
  - intros k t Hk. change (map ?f ?l) with (f <$> l). by rewrite list_lookup_fmap, Hk.
Qed.

Lemma built_model_copies_definition_witness :
  exists filename model decks w',
    assemble Sample.env Sample.package Sample.world = (Return (filename, model, decks), w') /\
    2 ^ 30 <= genanki.Model.model_id model < 2 ^ 31 /\
    genanki.Model.name model = ModelDefinition.name (Package.model Sample.package) /\
    genanki.Model.css model = ModelDefinition.css (Package.model Sample.package) /\
    length (genanki.Model.fields model) =
      length (ModelDefinition.fields (Package.model Sample.package)) /\
    length (genanki.Model.templates model) =
      length (ModelDefinition.templates (Package.model Sample.package)) /\
    (forall k field, ModelDefinition.fields (Package.model Sample.package) !! k = Some field ->
       genanki.Model.fields model !! k = Some [("name"%string, field)]) /\
    (forall k t, ModelDefinition.templates (Package.model Sample.package) !! k = Some t ->
       genanki.Model.templates model !! k =
       Some [("name"%string, CardTemplate.name t); ("qfmt"%string, CardTemplate.qfmt t);
             ("afmt"%string, CardTemplate.afmt t)]).
Proof. apply (built_model_copies_definition Sample.env Sample.package Sample.world). Defined.

(** X15. Uploading the same file a second time changes nothing more: the
    answer and the world are those of the first upload. *)
Theorem upload_media_idempotent env file w :
  upload_media env file (snd (upload_media env file w)) = upload_media env file w.
Proof.
  rewrite !upload_media_spec.
  destruct (open_error env _) eqn:Hopen; cbn [snd]; rewrite ?Hopen; [reflexivity|].
  cbn [fs rand_calls uuid_calls]. by rewrite insert_insert_eq.
Qed.

Example upload_twice :
  snd (upload_media Sample.env (UploadFile.mk "cat.png" [Byte.x01])
         (snd (upload_media Sample.env (UploadFile.mk "cat.png" [Byte.x01]) Sample.world))) =
  SampleRuns.with_media.
Proof. vm_compute. reflexivity. Qed.
